(** * CVEvaluator: the evaluation workflow of [src/components/CVEvaluator.tsx]

    A shallow embedding of the React component's state cells, its event
    handlers ([handleFileUpload], [handleDrop], [evaluateCV],
    [downloadReport]) and the part of its view that gates events or branches
    on report data, followed by the properties proved about them.

    Conventions of the embedding.
    - Each [useState] cell is a field of [State]; a setter writes its own
      cell only.  React re-renders after every event, so a handler reads the
      state current at the time it is called.
    - A handler is a computation in the monad [M]: it threads the state,
      appends to a log of observable effects (console output, DOM calls,
      network requests) and may throw.
    - An [async] handler is split at its [await fetch(...)]: the [_call] part
      runs up to the moment the request is sent, the [_settled] part is the
      continuation run when the request settles.  Between the later awaits of
      one continuation ([response.json()], [response.blob()]) the handler
      writes no state cell, so the continuation is one step. *)

From Stdlib Require Import String Ascii List ZArith Bool Lia DecimalString.
Import ListNotations.
Local Open Scope string_scope.
Local Open Scope Z_scope.

Set Implicit Arguments.
Set Warnings "-register-all".

(* ------------------------------------------------------------------ *)
(** ** Data *)

(** The role argument of the intake handlers: [type: 'cv' | 'jd']. *)
Inductive Role := cv | jd.

(** A browser [File]: the handlers read [type] and [size], the view reads
    [name]; [content] is what the multipart body carries. *)
Record File := mkFile {
  name : string;
  size : Z;
  type : string;
  content : list Byte.byte
}.

(** A value produced by [response.json()].  An object is its list of own
    properties in insertion order (the order [JSON.stringify] emits), keys
    distinct.  Numbers are the integers JavaScript holds exactly, those of
    magnitude at most 2^53 - 1; fractional and larger values are outside
    this model. *)
Inductive JSON :=
| JNull
| JBool (b : bool)
| JNumber (n : Z)
| JString (s : string)
| JArray (items : list JSON)
| JObject (props : list (string * JSON)).

(** A JavaScript value reached from parsed JSON: [None] is [undefined]. *)
Definition JSValue := option JSON.

(** What a handler can throw. *)
Inductive Exn :=
| TypeError (message : string)
| SyntaxError (message : string)
| NetworkError (message : string)
| Error (message : string).

(** The interfaces declared at the top of the file; only the [result] cell
    is typed with them, and nothing ever writes it. *)
Record Section_ := mkSection {
  sec_name : string;
  sec_score : Z;
  sec_keywords : list string
}.

Record EvaluationResult := mkEvaluationResult {
  res_name : string;
  res_matchScore : Z;
  res_sections : list Section_
}.

(** The six [useState] cells.  [None] is [null] for the file cells and the
    error; the report cell starts as [null] and later holds whatever the
    response body parsed to, so it is a [JSON] value. *)
Record State := mkState {
  cvFile : option File;
  jobFile : option File;
  evaluationReport : JSON;
  isEvaluating : bool;
  error : option string;
  result : option EvaluationResult
}.

Definition initialState : State :=
  mkState None None JNull false None None.

Definition setCvFile (f : option File) (st : State) : State :=
  mkState f (jobFile st) (evaluationReport st) (isEvaluating st) (error st) (result st).
Definition setJobFile (f : option File) (st : State) : State :=
  mkState (cvFile st) f (evaluationReport st) (isEvaluating st) (error st) (result st).
Definition setEvaluationReport (r : JSON) (st : State) : State :=
  mkState (cvFile st) (jobFile st) r (isEvaluating st) (error st) (result st).
Definition setIsEvaluating (b : bool) (st : State) : State :=
  mkState (cvFile st) (jobFile st) (evaluationReport st) b (error st) (result st).
Definition setError (e : option string) (st : State) : State :=
  mkState (cvFile st) (jobFile st) (evaluationReport st) (isEvaluating st) e (result st).

(** The FileSlot of a role. *)
Definition slot (r : Role) (st : State) : option File :=
  match r with cv => cvFile st | jd => jobFile st end.

(* ------------------------------------------------------------------ *)
(** ** JavaScript operations on parsed values *)

(** Truthiness ([!x], [x || y], [x && y]). *)
Definition truthy (v : JSON) : bool :=
  match v with
  | JNull => false
  | JBool b => b
  | JNumber n => negb (n =? 0)
  | JString s => negb (s =? "")%string
  | JArray _ => true
  | JObject _ => true
  end.

Definition truthyV (v : JSValue) : bool :=
  match v with None => false | Some j => truthy j end.

Fixpoint lookup (k : string) (props : list (string * JSON)) : JSValue :=
  match props with
  | [] => None
  | (k', v) :: rest => if (k =? k')%string then Some v else lookup k rest
  end.

(** Property read [v.k] for the keys the component uses ([error], [title],
    [status], [description], [matchScore], [sections]): a [TypeError] on
    [null], the own property on an object, [undefined] on anything else. *)
Definition prop (v : JSON) (k : string) : Exn + JSValue :=
  match v with
  | JNull => inl (TypeError ("Cannot read properties of null (reading '" ++ k ++ "')"))
  | JObject props => inr (lookup k props)
  | _ => inr None
  end.

Definition string_of_Z (n : Z) : string :=
  NilZero.string_of_int (Z.to_int n).

Fixpoint join (sep : string) (l : list string) : string :=
  match l with
  | [] => ""
  | [x] => x
  | x :: rest => x ++ sep ++ join sep rest
  end.

(** [String(v)], as a template literal applies it.  A number in the range
    of [JSON] is printed digit by digit. *)
Fixpoint toString (v : JSON) : string :=
  match v with
  | JNull => "null"
  | JBool true => "true"
  | JBool false => "false"
  | JNumber n => string_of_Z n
  | JString s => s
  | JArray items =>
      join "," (map (fun i => match i with JNull => "" | _ => toString i end) items)
  | JObject _ => "[object Object]"
  end.

(** [a === "lit"] against a string literal. *)
Definition strict_eq_string (v : JSValue) (lit : string) : bool :=
  match v with
  | Some (JString s) => (s =? lit)%string
  | _ => false
  end.

(** [s.includes(sub)]. *)
Fixpoint starts_with (sub s : string) : bool :=
  match sub, s with
  | EmptyString, _ => true
  | String a sub', String b s' => Ascii.eqb a b && starts_with sub' s'
  | String _ _, EmptyString => false
  end.

Fixpoint includes (s sub : string) : bool :=
  starts_with sub s ||
  match s with
  | EmptyString => false
  | String _ s' => includes s' sub
  end.

(* ------------------------------------------------------------------ *)
(** ** Effects, requests and responses *)

Definition Blob := list Byte.byte.

(** The body of an outgoing request: the [FormData] of [evaluateCV] (its
    parts in [append] order) or the [JSON.stringify]-ed report of
    [downloadReport]. *)
Inductive RequestBody :=
| FormData (parts : list (string * File))
| JsonBody (payload : JSON).

Record Request := mkRequest {
  url : string;
  method : string;
  headers : list (string * string);
  body : RequestBody
}.

(** A [Response] as the handlers use it: the status, and what the
    body-reading methods [json()] and [blob()] settle to. *)
Record Response := mkResponse {
  status : Z;
  json : Exn + JSON;
  blob : Exn + Blob
}.

(** [response.ok]: a status in the range 200-299. *)
Definition ok (r : Response) : bool :=
  (200 <=? status r) && (status r <=? 299).

(** How the promise returned by [fetch] settles. *)
Inductive FetchOutcome :=
| Rejected (e : Exn)
| Resolved (r : Response).

(** Everything a handler does besides writing state cells. *)
Inductive Effect :=
| PreventDefault
| ClassListAdd (cls : string)
| ClassListRemove (cls : string)
| ConsoleLog (label : string) (arg : option JSON)
| ConsoleError (label : string) (e : Exn)
| Fetch (req : Request)
| CreateObjectURL (b : Blob)
| AppendAnchor (download : string) (href : Blob)
| ClickAnchor (download : string) (href : Blob)
| RevokeObjectURL (b : Blob)
| RemoveAnchor.

Definition is_fetch (e : Effect) : bool :=
  match e with Fetch _ => true | _ => false end.

(** The network requests among the effects of a handler run. *)
Definition requests (log : list Effect) : list Effect := filter is_fetch log.

(* ------------------------------------------------------------------ *)
(** ** The handler monad: state, effect log, exceptions *)

Module Handler.

Record Run (A : Type) := mkRun {
  value : Exn + A;
  final : State;
  log : list Effect
}.

Definition M (A : Type) := State -> Run A.

Definition ret {A} (a : A) : M A :=
  fun st => mkRun (inr a) st [].

Definition throw {A} (e : Exn) : M A :=
  fun st => mkRun (inl e) st [].

Definition bind {A B} (m : M A) (k : A -> M B) : M B :=
  fun st =>
    let r := m st in
    match value r with
    | inl e => mkRun (inl e) (final r) (log r)
    | inr a =>
        let r' := k a (final r) in
        mkRun (value r') (final r') (log r ++ log r')
    end.

(** A state setter call. *)
Definition set (f : State -> State) : M unit :=
  fun st => mkRun (inr tt) (f st) [].

Definition get : M State :=
  fun st => mkRun (inr st) st [].

Definition emit (e : Effect) : M unit :=
  fun st => mkRun (inr tt) st [e].

(** The settled value of an awaited promise: its value or a throw. *)
Definition await {A} (p : Exn + A) : M A :=
  match p with
  | inl e => throw e
  | inr a => ret a
  end.

(** A synchronous operation that returns or throws. *)
Definition lift {A} (p : Exn + A) : M A :=
  match p with
  | inl e => throw e
  | inr a => ret a
  end.

(** [try { m } catch (e) { h e }]. *)
Definition try_catch {A} (m : M A) (h : Exn -> M A) : M A :=
  fun st =>
    let r := m st in
    match value r with
    | inl e =>
        let r' := h e (final r) in
        mkRun (value r') (final r') (log r ++ log r')
    | inr _ => r
    end.

(** [try { m } finally { f }]: [f] runs on both exits; the outcome of [m]
    stands unless [f] itself throws. *)
Definition finally {A} (m : M A) (f : M unit) : M A :=
  fun st =>
    let r := m st in
    let r' := f (final r) in
    match value r' with
    | inl e => mkRun (inl e) (final r') (log r ++ log r')
    | inr _ => mkRun (value r) (final r') (log r ++ log r')
    end.

End Handler.

Import Handler.

Notation "x <- m ;; k" := (bind m (fun x => k))
  (at level 61, m at next level, right associativity).
Notation "m ;; k" := (bind m (fun _ => k))
  (at level 61, right associativity).

(* ------------------------------------------------------------------ *)
(** ** File intake: [handleFileUpload], [handleDrop] *)

(** [event.target.files] of the file input: a [FileList] or [null]. *)
Record ChangeEvent := mkChangeEvent {
  target_files : option (list File)
}.

(** [event.dataTransfer.files] of a drop: always a [FileList]. *)
Record DragEvent := mkDragEvent {
  dataTransfer_files : list File
}.

Definition PDF_TYPE : string := "application/pdf".
Definition MAX_SIZE : Z := 5 * 1024 * 1024.
Definition UPLOAD_ERROR : string := "Please upload a PDF file under 5MB".

(** The test both handlers apply to a present file:
    [file.type === 'application/pdf' && file.size <= 5 * 1024 * 1024]. *)
Definition acceptable (f : File) : bool :=
  (type f =? PDF_TYPE)%string && (size f <=? MAX_SIZE).

(** The two branches of the [if (file && ...)] shared by both handlers. *)
Definition store (ty : Role) (f : File) : M unit :=
  match ty with
  | cv => set (setCvFile (Some f))
  | jd => set (setJobFile (Some f))
  end;;
  set (setError None).

Definition reject : M unit :=
  set (setError (Some UPLOAD_ERROR)).

Definition handleFileUpload (event : ChangeEvent) (ty : Role) : M unit :=
  let file :=
    match target_files event with
    | None => None                      (* files?.[0] on null *)
    | Some files => hd_error files      (* files[0] *)
    end in
  match file with
  | Some f => if acceptable f then store ty f else reject
  | None => reject
  end.

Definition HIGHLIGHT : string := "border-blue-500".

Definition handleDragOver : M unit :=
  emit PreventDefault;;
  emit (ClassListAdd HIGHLIGHT).

Definition handleDragLeave : M unit :=
  emit PreventDefault;;
  emit (ClassListRemove HIGHLIGHT).

Definition handleDrop (event : DragEvent) (ty : Role) : M unit :=
  emit PreventDefault;;
  emit (ClassListRemove HIGHLIGHT);;
  let file := hd_error (dataTransfer_files event) in
  match file with
  | Some f => if acceptable f then store ty f else reject
  | None => reject
  end.

(* ------------------------------------------------------------------ *)
(** ** Evaluation: [evaluateCV] *)

Definition EVALUATE_URL : string :=
  "http://cv-evaluator-backend-production.up.railway.app:3000/api/evaluate".
Definition REPORT_URL : string :=
  "http://cv-evaluator-backend-production.up.railway.app:3000/api/generate-report".
Definition MISSING_FILES_ERROR : string := "Please upload both CV and Job Description".
Definition EVALUATE_ERROR : string := "Failed to evaluate CV. Please try again.".
Definition DOWNLOAD_ERROR : string := "Failed to download report".
Definition REPORT_FILENAME : string := "cv-evaluation-report.pdf".

(** [evaluateCV] up to the point where [fetch] has been called. *)
Definition evaluateCV_call : M unit :=
  st <- get;;
  match cvFile st, jobFile st with
  | Some cvF, Some jobF =>
      set (setIsEvaluating true);;
      set (setError None);;
      let formData := [("cv", cvF); ("jobDescription", jobF)] in
      emit (ConsoleLog "Sending request to API..." None);;
      emit (Fetch (mkRequest EVALUATE_URL "POST" [] (FormData formData)))
  | _, _ =>
      set (setError (Some MISSING_FILES_ERROR))
  end.

(** [`API error: ${result.error || 'Unknown error'}`]. *)
Definition api_error_message (err : JSValue) : string :=
  "API error: " ++
  match err with
  | Some e => if truthy e then toString e else "Unknown error"
  | None => "Unknown error"
  end.

(** The rest of [evaluateCV], run when the request has settled. *)
Definition evaluateCV_settled (outcome : FetchOutcome) : M unit :=
  finally
    (try_catch
       (response <- match outcome with
                    | Rejected e => throw e
                    | Resolved r => ret r
                    end;;
        emit (ConsoleLog "Response received:" (Some (JNumber (status response))));;
        parsed <- await (json response);;
        emit (ConsoleLog "Parsed result:" (Some parsed));;
        (if negb (ok response)
         then err <- lift (prop parsed "error");;
              throw (Error (api_error_message err))
         else ret tt);;
        set (setEvaluationReport parsed))
       (fun e =>
          emit (ConsoleError "Full error details:" e);;
          set (setError (Some EVALUATE_ERROR))))
    (set (setIsEvaluating false)).

(* ------------------------------------------------------------------ *)
(** ** Export: [downloadReport] *)

(** [downloadReport] up to the point where [fetch] has been called; the
    body is the report held when the handler is called. *)
Definition downloadReport_call : M unit :=
  st <- get;;
  emit (Fetch (mkRequest REPORT_URL "POST"
                 [("Content-Type", "application/json")]
                 (JsonBody (evaluationReport st)))).

(** The rest of [downloadReport], run when the request has settled. *)
Definition downloadReport_settled (outcome : FetchOutcome) : M unit :=
  try_catch
    (response <- match outcome with
                 | Rejected e => throw e
                 | Resolved r => ret r
                 end;;
     (if negb (ok response)
      then throw (Error "Failed to generate PDF")
      else ret tt);;
     b <- await (blob response);;
     emit (CreateObjectURL b);;
     emit (AppendAnchor REPORT_FILENAME b);;
     emit (ClickAnchor REPORT_FILENAME b);;
     emit (RevokeObjectURL b);;
     emit RemoveAnchor)
    (fun e =>
       emit (ConsoleError "Error downloading report:" e);;
       set (setError (Some DOWNLOAD_ERROR))).

(* ------------------------------------------------------------------ *)
(** ** The view: what gates events, and how a report is laid out *)

Definition is_some {A} (o : option A) : bool :=
  match o with Some _ => true | None => false end.

(** [disabled={!cvFile || !jobFile || isEvaluating}] of the Evaluate button. *)
Definition evaluateButton_disabled (st : State) : bool :=
  negb (is_some (cvFile st)) || negb (is_some (jobFile st)) || isEvaluating st.

(** [disabled={isEvaluating}] of both file inputs. *)
Definition fileInput_disabled (st : State) : bool :=
  isEvaluating st.

(** [{evaluationReport && (...)}]: the card that holds the Download button. *)
Definition reportCard_rendered (st : State) : bool :=
  truthy (evaluationReport st).

Inductive Icon := CheckCircle | Clock | AlertCircle.

(** The two arms of the ternary on [section.title]. *)
Inductive SectionBody :=
| KeywordTokens (tokens : list JSON)   (* one [<span>] per keyword *)
| Prose (text : JSValue).              (* one [<p>] *)

Record SectionView := mkSectionView {
  icons : list Icon;
  heading : JSValue;
  sectionBody : SectionBody
}.

Definition MISSING_KEYWORDS : string := "Missing Keywords".

Definition andThen {A B} (x : Exn + A) (k : A -> Exn + B) : Exn + B :=
  match x with
  | inl e => inl e
  | inr a => k a
  end.

(** [section.description.map(...)]: only an array has [map]. *)
Definition description_map (description : JSValue) : Exn + list JSON :=
  match description with
  | Some (JArray keywords) => inr keywords
  | Some JNull => inl (TypeError "Cannot read properties of null (reading 'map')")
  | None => inl (TypeError "Cannot read properties of undefined (reading 'map')")
  | Some _ => inl (TypeError "section.description.map is not a function")
  end.

(** The three [section.status === ... && <Icon/>] lines before the title. *)
Definition status_icons (st : JSValue) : list Icon :=
  ((if strict_eq_string st "success" then [CheckCircle] else []) ++
   (if strict_eq_string st "warning" then [Clock] else []) ++
   (if strict_eq_string st "error" then [AlertCircle] else []))%list.

(** What React accepts between tags: text, numbers, booleans, [null] and
    [undefined], and arrays of these; a plain object is refused. *)
Fixpoint validChild (v : JSON) : bool :=
  match v with
  | JObject _ => false
  | JArray items => forallb validChild items
  | _ => true
  end.

Definition validChildV (v : JSValue) : bool :=
  match v with
  | Some j => validChild j
  | None => true
  end.

(** The error React throws for an object child; its message goes on to list
    the object's keys. *)
Definition OBJECT_CHILD : Exn :=
  Error "Objects are not valid as a React child".

Definition child (v : JSValue) : Exn + unit :=
  if validChildV v then inr tt else inl OBJECT_CHILD.

Definition children (vs : list JSON) : Exn + unit :=
  if forallb validChild vs then inr tt else inl OBJECT_CHILD.

(** The callback of [evaluationReport.sections.map]: the element built for
    one section.  Reading a field of [null] or calling [map] on something
    that is not an array throws here, while the component function runs. *)
Definition sectionElement (section : JSON) : Exn + SectionView :=
  andThen (prop section "status") (fun st =>
  andThen (prop section "title") (fun title =>
  andThen (prop section "description") (fun description =>
  let ics := status_icons st in
  if strict_eq_string title MISSING_KEYWORDS
  then andThen (description_map description) (fun keywords =>
       inr (mkSectionView ics title (KeywordTokens keywords)))
  else inr (mkSectionView ics title (Prose description))))).

(** React laying out the element of one section: the title inside [<h3>],
    then each keyword inside its [<span>] or the description inside [<p>]. *)
Definition commitSection (v : SectionView) : Exn + SectionView :=
  andThen (child (heading v)) (fun _ =>
  andThen (match sectionBody v with
           | KeywordTokens tokens => children tokens
           | Prose text => child text
           end) (fun _ =>
  inr v)).

(** One section from element to page. *)
Definition renderSection (section : JSON) : Exn + SectionView :=
  andThen (sectionElement section) commitSection.

Fixpoint sectionElements (sections : list JSON) : Exn + list SectionView :=
  match sections with
  | [] => inr []
  | s :: rest =>
      andThen (sectionElement s) (fun v =>
      andThen (sectionElements rest) (fun vs => inr (v :: vs)))
  end.

Fixpoint commitSections (views : list SectionView) : Exn + list SectionView :=
  match views with
  | [] => inr []
  | v :: rest =>
      andThen (commitSection v) (fun v' =>
      andThen (commitSections rest) (fun vs => inr (v' :: vs)))
  end.

(** A list of sections from elements to page: [map] builds every element
    first, React then lays them out in order. *)
Definition renderSections (sections : list JSON) : Exn + list SectionView :=
  andThen (sectionElements sections) commitSections.

Record ReportView := mkReportView {
  shownScore : JSValue;
  shownSections : list SectionView
}.

(** The report card: nothing when the report cell is falsy.  Otherwise the
    component function builds the elements, and React lays out the score
    (the child [{evaluationReport.matchScore}]) and then the sections.  The
    imported [Progress] bar, which also receives the score, is not part of
    this file and is left out. *)
Definition renderReport (st : State) : Exn + option ReportView :=
  if reportCard_rendered st then
    andThen (prop (evaluationReport st) "matchScore") (fun score =>
    andThen (prop (evaluationReport st) "sections") (fun sections =>
    match sections with
    | Some (JArray l) =>
        andThen (sectionElements l) (fun elements =>
        andThen (child score) (fun _ =>
        andThen (commitSections elements) (fun vs =>
        inr (Some (mkReportView score vs)))))
    | Some JNull => inl (TypeError "Cannot read properties of null (reading 'map')")
    | None => inl (TypeError "Cannot read properties of undefined (reading 'map')")
    | Some _ => inl (TypeError "evaluationReport.sections.map is not a function")
    end))
  else inr None.

(* ------------------------------------------------------------------ *)
(** ** The mounted component: events as the page can deliver them *)

(** The component together with its environment: the requests sent and not
    yet settled, and everything the handlers have done so far. *)
Record System := mkSystem {
  component : State;
  pendingEvaluations : list Request;
  pendingDownloads : list Request;
  trace : list Effect
}.

Definition mount : System := mkSystem initialState [] [] [].

Inductive UIEvent :=
| InputChange (ty : Role) (e : ChangeEvent)
| Drop (ty : Role) (e : DragEvent)
| DragOver
| DragLeave
| ClickEvaluate
| ClickDownload
| EvaluationSettles (o : FetchOutcome)
| DownloadSettles (o : FetchOutcome).

(** The requests a handler run sent to [u]. *)
Fixpoint fetches_to (u : string) (l : list Effect) : list Request :=
  match l with
  | [] => []
  | Fetch req :: rest =>
      if (url req =? u)%string then req :: fetches_to u rest else fetches_to u rest
  | _ :: rest => fetches_to u rest
  end.

(** Run a handler on the mounted component. *)
Definition invoke (h : M unit) (sys : System) : System :=
  let r := h (component sys) in
  mkSystem (final r)
           (pendingEvaluations sys ++ fetches_to EVALUATE_URL (log r))%list
           (pendingDownloads sys ++ fetches_to REPORT_URL (log r))%list
           (trace sys ++ log r)%list.

(** One event.  A disabled control delivers no event, a button that is not
    rendered cannot be clicked, and a request settles only if it was sent.
    Only the [disabled] and [&&] expressions of the view gate an event here:
    a drop is delivered also while evaluating (the drop zones are locked by
    a style class only), and events are delivered also in a state whose
    report cannot be laid out, where the real page is gone.  The sessions of
    this model therefore include every session of the real page. *)
Definition dispatch (ev : UIEvent) (sys : System) : System :=
  match ev with
  | InputChange ty e =>
      if fileInput_disabled (component sys) then sys
      else invoke (handleFileUpload e ty) sys
  | Drop ty e => invoke (handleDrop e ty) sys
  | DragOver => invoke handleDragOver sys
  | DragLeave => invoke handleDragLeave sys
  | ClickEvaluate =>
      if evaluateButton_disabled (component sys) then sys
      else invoke evaluateCV_call sys
  | ClickDownload =>
      if reportCard_rendered (component sys)
      then invoke downloadReport_call sys
      else sys
  | EvaluationSettles o =>
      match pendingEvaluations sys with
      | [] => sys
      | _ :: rest =>
          invoke (evaluateCV_settled o)
                 (mkSystem (component sys) rest (pendingDownloads sys) (trace sys))
      end
  | DownloadSettles o =>
      match pendingDownloads sys with
      | [] => sys
      | _ :: rest =>
          invoke (downloadReport_settled o)
                 (mkSystem (component sys) (pendingEvaluations sys) rest (trace sys))
      end
  end.

(** A session: events in the order they arrive (first event first). *)
Definition session (evs : list UIEvent) (sys : System) : System :=
  fold_left (fun s ev => dispatch ev s) evs sys.

(* ------------------------------------------------------------------ *)
(** ** The intake contract in the specification's words *)

Definition setSlot (ty : Role) (f : option File) (st : State) : State :=
  match ty with
  | cv => setCvFile f st
  | jd => setJobFile f st
  end.

(** [submitCandidate(role, file)] as the specification words it: when the
    declared media type equals the PDF type and the byte size is at most
    5 MiB, the slot of [role] is replaced and the transient error cleared;
    otherwise the slot is left alone and the validation error raised. *)
Definition submitCandidate (role : Role) (file : File) (st : State) : State :=
  if ((type file =? "application/pdf")%string && (size file <=? 5 * 1024 * 1024))%bool
  then setError None (setSlot role (Some file) st)
  else setError (Some "Please upload a PDF file under 5MB") st.

(* ------------------------------------------------------------------ *)
(** ** Auxiliary definitions *)

(** What the [if (!response.ok)] branch throws for a parsed body. *)
Definition api_exception (parsed : JSON) : Exn :=
  match prop parsed "error" with
  | inl e => e
  | inr err => Error (api_error_message err)
  end.

(* ------------------------------------------------------------------ *)
(** ** Sample values *)

Definition sampleCv : File :=
  mkFile "cv.pdf" 2048 "application/pdf" [].
Definition sampleJob : File :=
  mkFile "job.pdf" 1024 "application/pdf" [].

(** Both files chosen, nothing sent yet. *)
Definition readyState : State :=
  mkState (Some sampleCv) (Some sampleJob) JNull false None None.

(** Both files chosen, the evaluation request sent and not yet settled. *)
Definition submittingState : State :=
  mkState (Some sampleCv) (Some sampleJob) JNull true None None.

(** Status 500 with body [{ "error": "parse failure" }]. *)
Definition parseFailure500 : Response :=
  mkResponse 500 (inr (JObject [("error", JString "parse failure")])) (inr []).

Definition sampleReport : JSON :=
  JObject [("matchScore", JNumber 87);
           ("sections",
            JArray [JObject [("title", JString "Experience");
                             ("status", JString "success");
                             ("description", JString "Strong match")];
                    JObject [("title", JString "Missing Keywords");
                             ("status", JString "warning");
                             ("description",
                              JArray [JString "teamwork"; JString "SQL"])]])].

(** A report one of whose sections is [null]. *)
Definition reportWithNullSection : JSON :=
  JObject [("matchScore", JNumber 87);
           ("sections",
            JArray [JObject [("title", JString "Experience");
                             ("description", JString "Strong match")];
                    JNull])].

Definition report200 : Response :=
  mkResponse 200 (inr sampleReport) (inr []).

(** A successful answer of the export endpoint. *)
Definition pdf200 : Response :=
  mkResponse 200 (inl (SyntaxError "Unexpected token % in JSON")) (inr []).

Definition evaluateRequest : Request :=
  mkRequest EVALUATE_URL "POST" []
            (FormData [("cv", sampleCv); ("jobDescription", sampleJob)]).

(* ------------------------------------------------------------------ *)
(** ** The single-flight invariant *)

(** The evaluating flag is set exactly while one evaluation request is
    pending, and no more than one ever is. *)
Definition single_flight (sys : System) : Prop :=
  length (pendingEvaluations sys) =
  if isEvaluating (component sys) then 1%nat else 0%nat.

(** What a handler run must satisfy to leave the evaluation traffic alone. *)
Definition quiet (h : M unit) : Prop :=
  forall st,
    isEvaluating (final (h st)) = isEvaluating st /\
    fetches_to EVALUATE_URL (log (h st)) = [].

(* ------------------------------------------------------------------ *)
(** ** More of the view *)

(** [{error && (<Alert>...{error}</Alert>)}]: the text of the alert, if one
    is shown.  An empty string is falsy. *)
Definition errorAlert (st : State) : option string :=
  match error st with
  | Some msg => if (msg =? "")%string then None else Some msg
  | None => None
  end.

(** [{cvFile && (<div>Selected: {cvFile.name}</div>)}] and the same line for
    the job description. *)
Definition selectedLabel (ty : Role) (st : State) : option string :=
  match slot ty st with
  | Some f => Some ("Selected: " ++ name f)
  | None => None
  end.

(** The caption of the Evaluate button. *)
Definition evaluateButton_label (st : State) : string :=
  if isEvaluating st then "Evaluating..." else "Evaluate CV".

(* ------------------------------------------------------------------ *)
(** ** Definitions for the session properties *)

Definition other (ty : Role) : Role :=
  match ty with cv => jd | jd => cv end.

(** The file an intake event offers: the first of its list. *)
Definition input_file (e : ChangeEvent) : option File :=
  match target_files e with
  | None => None
  | Some files => hd_error files
  end.

Definition dropped_file (e : DragEvent) : option File :=
  hd_error (dataTransfer_files e).

(** The state both intake handlers leave, as a function of the offered file. *)
Definition intake (file : option File) (ty : Role) (st : State) : State :=
  match file with
  | Some f =>
      if acceptable f
      then setError None (setSlot ty (Some f) st)
      else setError (Some UPLOAD_ERROR) st
  | None => setError (Some UPLOAD_ERROR) st
  end.

(** The outcomes on which [evaluateCV] reaches its [catch]: the fetch
    rejects, the body does not parse, or the status is not a success. *)
Definition evaluation_failed (o : FetchOutcome) : bool :=
  match o with
  | Rejected _ => true
  | Resolved r =>
      match json r with
      | inl _ => true
      | inr _ => negb (ok r)
      end
  end.

(** The downloads a handler run offered: file name and content of each
    clicked anchor. *)
Fixpoint downloads (l : list Effect) : list (string * Blob) :=
  match l with
  | [] => []
  | ClickAnchor fname b :: rest => (fname, b) :: downloads rest
  | _ :: rest => downloads rest
  end.

Definition evaluateRequest_of (cvF jobF : File) : Request :=
  mkRequest EVALUATE_URL "POST" []
            (FormData [("cv", cvF); ("jobDescription", jobF)]).

Definition reportRequest_of (report : JSON) : Request :=
  mkRequest REPORT_URL "POST"
            [("Content-Type", "application/json")]
            (JsonBody report).

(** How one event can change the component, with the effects it adds to
    the trace. *)
Inductive change : State -> State -> list Effect -> Prop :=
| change_nothing (st : State) (l : list Effect) :
    requests l = [] ->
    change st st l
| change_accept (st : State) (ty : Role) (f : File) (l : list Effect) :
    acceptable f = true ->
    requests l = [] ->
    change st (setError None (setSlot ty (Some f) st)) l
| change_reject (st : State) (l : list Effect) :
    requests l = [] ->
    change st (setError (Some UPLOAD_ERROR) st) l
| change_submit (st : State) (cvF jobF : File) :
    cvFile st = Some cvF ->
    jobFile st = Some jobF ->
    isEvaluating st = false ->
    change st (setError None (setIsEvaluating true st))
           [ConsoleLog "Sending request to API..." None;
            Fetch (evaluateRequest_of cvF jobF)]
| change_succeed (st : State) (parsed : JSON) (l : list Effect) :
    requests l = [] ->
    change st (setIsEvaluating false (setEvaluationReport parsed st)) l
| change_fail (st : State) (l : list Effect) :
    requests l = [] ->
    change st (setIsEvaluating false (setError (Some EVALUATE_ERROR) st)) l
| change_export (st : State) :
    truthy (evaluationReport st) = true ->
    change st st [Fetch (reportRequest_of (evaluationReport st))]
| change_export_fail (st : State) (l : list Effect) :
    requests l = [] ->
    change st (setError (Some DOWNLOAD_ERROR) st) l.

(** What holds of the component in every session. *)
Definition sound (st : State) : Prop :=
  (forall ty f, slot ty st = Some f -> acceptable f = true) /\
  (isEvaluating st = true ->
   is_some (cvFile st) = true /\ is_some (jobFile st) = true) /\
  (error st = None \/ error st = Some UPLOAD_ERROR \/
   error st = Some EVALUATE_ERROR \/ error st = Some DOWNLOAD_ERROR) /\
  result st = None.

(** The two kinds of request the component sends. *)
Definition well_sent (req : Request) : Prop :=
  (exists cvF jobF,
      req = evaluateRequest_of cvF jobF /\
      acceptable cvF = true /\ acceptable jobF = true) \/
  (exists report,
      req = reportRequest_of report /\ truthy report = true).

Definition sound_system (sys : System) : Prop :=
  sound (component sys) /\
  (forall req, In (Fetch req) (trace sys) -> well_sent req).

(** When a section, and a stored report, can be laid out without a throw. *)
Definition renderable_section (section : JSON) : bool :=
  match section with
  | JNull => false
  | JObject props =>
      validChildV (lookup "title" props) &&
      (if strict_eq_string (lookup "title" props) MISSING_KEYWORDS
       then match lookup "description" props with
            | Some (JArray keywords) => forallb validChild keywords
            | _ => false
            end
       else validChildV (lookup "description" props))
  | _ => true
  end.

Definition renderable_report (report : JSON) : bool :=
  if truthy report then
    match report with
    | JObject props =>
        match lookup "sections" props with
        | Some (JArray sections) =>
            validChildV (lookup "matchScore" props) &&
            forallb renderable_section sections
        | _ => false
        end
    | _ => false
    end
  else true.

(** A section element whose title and body React can lay out. *)
Definition showable (v : SectionView) : bool :=
  validChildV (heading v) &&
  match sectionBody v with
  | KeywordTokens tokens => forallb validChild tokens
  | Prose text => validChildV text
  end.

(** The page is on display: laying out the report card does not throw. *)
Definition displayed (st : State) : Prop :=
  exists view, renderReport st = inr view.

(* ------------------------------------------------------------------ *)
(** ** Basic facts *)

Unset Implicit Arguments.

Ltac run_handler :=
  cbv [evaluateCV_call evaluateCV_settled downloadReport_call
       downloadReport_settled finally try_catch bind await lift ret throw emit
       set get value final log app negb json blob status].

Lemma acceptable_iff (f : File) :
  acceptable f = true <-> type f = "application/pdf" /\ size f <= 5242880.
Proof.
  unfold acceptable, PDF_TYPE, MAX_SIZE.
  rewrite andb_true_iff, String.eqb_eq, Z.leb_le.
  change (5 * 1024 * 1024) with 5242880. tauto.
Qed.

Lemma acceptable_false_iff (f : File) :
  acceptable f = false <-> ~ (type f = "application/pdf" /\ size f <= 5242880).
Proof.
  rewrite <- acceptable_iff. destruct (acceptable f); split; congruence.
Qed.

Lemma store_run (ty : Role) (f : File) (st : State) :
  store ty f st = mkRun (inr tt) (setError None (setSlot ty (Some f) st)) [].
Proof. destruct ty; reflexivity. Qed.

Lemma reject_run (st : State) :
  reject st = mkRun (inr tt) (setError (Some UPLOAD_ERROR) st) [].
Proof. reflexivity. Qed.

Lemma handleFileUpload_present (st : State) (ty : Role) (f : File) (rest : list File) :
  handleFileUpload (mkChangeEvent (Some (f :: rest))) ty st =
  if acceptable f then store ty f st else reject st.
Proof. unfold handleFileUpload; simpl. destruct (acceptable f); reflexivity. Qed.

Lemma handleDrop_present (st : State) (ty : Role) (f : File) (rest : list File) :
  final (handleDrop (mkDragEvent (f :: rest)) ty st) =
  final (if acceptable f then store ty f st else reject st).
Proof.
  unfold handleDrop; simpl. destruct (acceptable f); [destruct ty|]; reflexivity.
Qed.

Lemma slot_setSlot (ty : Role) (f : option File) (st : State) :
  slot ty (setError None (setSlot ty f st)) = f.
Proof. destruct ty; reflexivity. Qed.

(* ------------------------------------------------------------------ *)
(** ** File intake *)

(** C3.  Through the file input and through a drop alike, a candidate file
    is stored in the slot of its role, and the error cleared, exactly when
    its declared type is ['application/pdf'] and its size is at most
    5,242,880 bytes; in every other case the state keeps both slots and gets
    the error ['Please upload a PDF file under 5MB'].  A PDF of 5,242,880
    bytes is stored, one of 5,242,881 bytes is refused. *)
Theorem intake_accepts_iff_pdf_within_limit :
  forall (st : State) (ty : Role) (f : File) (rest : list File),
    let viaInput := final (handleFileUpload (mkChangeEvent (Some (f :: rest))) ty st) in
    let viaDrop := final (handleDrop (mkDragEvent (f :: rest)) ty st) in
    (type f = "application/pdf" /\ size f <= 5242880 ->
       viaInput = setError None (setSlot ty (Some f) st) /\
       viaDrop = setError None (setSlot ty (Some f) st) /\
       slot ty viaInput = Some f /\ slot ty viaDrop = Some f) /\
    (~ (type f = "application/pdf" /\ size f <= 5242880) ->
       viaInput = setError (Some "Please upload a PDF file under 5MB") st /\
       viaDrop = setError (Some "Please upload a PDF file under 5MB") st /\
       cvFile viaInput = cvFile st /\ jobFile viaInput = jobFile st /\
       cvFile viaDrop = cvFile st /\ jobFile viaDrop = jobFile st) /\
    (forall n c,
       let atLimit := mkFile n 5242880 "application/pdf" c in
       final (handleFileUpload (mkChangeEvent (Some [atLimit])) ty st) =
         setError None (setSlot ty (Some atLimit) st) /\
       final (handleDrop (mkDragEvent [atLimit]) ty st) =
         setError None (setSlot ty (Some atLimit) st)) /\
    (forall n c,
       let overLimit := mkFile n 5242881 "application/pdf" c in
       final (handleFileUpload (mkChangeEvent (Some [overLimit])) ty st) =
         setError (Some "Please upload a PDF file under 5MB") st /\
       final (handleDrop (mkDragEvent [overLimit]) ty st) =
         setError (Some "Please upload a PDF file under 5MB") st).
Proof.
  intros st ty f rest viaInput viaDrop.
  subst viaInput viaDrop.
  rewrite handleFileUpload_present, handleDrop_present.
  split; [|split; [|split]].
  - intros Hok. apply acceptable_iff in Hok. rewrite Hok, store_run.
    cbn [final]. rewrite slot_setSlot. repeat split.
  - intros Hbad. apply acceptable_false_iff in Hbad. rewrite Hbad, reject_run.
    cbn [final]. repeat split.
  - intros n c. destruct ty; split; reflexivity.
  - intros n c. destruct ty; split; reflexivity.
Qed.

(** C9.  For one and the same candidate file, the file input and the drop
    zone leave the component in the same state, and that state is the one
    [submitCandidate] prescribes: the same slot update when the file is
    accepted, the same error when it is refused; neither handler throws. *)
Theorem intake_paths_agree :
  forall (st : State) (ty : Role) (f : File) (rest rest' : list File),
    let viaInput := handleFileUpload (mkChangeEvent (Some (f :: rest))) ty st in
    let viaDrop := handleDrop (mkDragEvent (f :: rest')) ty st in
    final viaInput = final viaDrop /\
    final viaInput = submitCandidate ty f st /\
    final viaDrop = submitCandidate ty f st /\
    value viaInput = inr tt /\ value viaDrop = inr tt.
Proof.
  intros st ty f rest rest' viaInput viaDrop.
  assert (Hin : final viaInput = submitCandidate ty f st).
  { subst viaInput. rewrite handleFileUpload_present.
    unfold submitCandidate. fold PDF_TYPE. fold MAX_SIZE. fold (acceptable f).
    destruct (acceptable f); [rewrite store_run | rewrite reject_run]; reflexivity. }
  assert (Hdr : final viaDrop = submitCandidate ty f st).
  { subst viaDrop. rewrite handleDrop_present.
    unfold submitCandidate. fold PDF_TYPE. fold MAX_SIZE. fold (acceptable f).
    destruct (acceptable f); [rewrite store_run | rewrite reject_run]; reflexivity. }
  repeat split; try congruence.
  - subst viaInput. rewrite handleFileUpload_present.
    destruct (acceptable f); [rewrite store_run | rewrite reject_run]; reflexivity.
  - subst viaDrop. unfold handleDrop; simpl.
    destruct (acceptable f); [destruct ty|]; reflexivity.
Qed.

(** C10.  An intake event without any file (a file input whose list is
    empty or [null], a drop whose list is empty) sets the error
    ['Please upload a PDF file under 5MB'] and changes nothing else, so both
    slots keep what they held. *)
Theorem intake_without_file_raises_error :
  forall (st : State) (ty : Role),
    let emptyInput := final (handleFileUpload (mkChangeEvent (Some [])) ty st) in
    let nullInput := final (handleFileUpload (mkChangeEvent None) ty st) in
    let emptyDrop := final (handleDrop (mkDragEvent []) ty st) in
    emptyInput = setError (Some "Please upload a PDF file under 5MB") st /\
    nullInput = setError (Some "Please upload a PDF file under 5MB") st /\
    emptyDrop = setError (Some "Please upload a PDF file under 5MB") st /\
    error emptyInput = Some "Please upload a PDF file under 5MB" /\
    error emptyDrop = Some "Please upload a PDF file under 5MB" /\
    cvFile emptyInput = cvFile st /\ jobFile emptyInput = jobFile st /\
    cvFile emptyDrop = cvFile st /\ jobFile emptyDrop = jobFile st.
Proof.
  intros st ty. cbv zeta. repeat split.
Qed.

(* ------------------------------------------------------------------ *)
(** ** Runs of [evaluateCV] *)

Lemma evaluateCV_call_missing (st : State) :
  cvFile st = None \/ jobFile st = None ->
  evaluateCV_call st = mkRun (inr tt) (setError (Some MISSING_FILES_ERROR) st) [].
Proof.
  intros H. run_handler.
  destruct (cvFile st), (jobFile st); destruct H; try discriminate; reflexivity.
Qed.

Lemma evaluateCV_call_ready (st : State) (cvF jobF : File) :
  cvFile st = Some cvF -> jobFile st = Some jobF ->
  evaluateCV_call st =
  mkRun (inr tt) (setError None (setIsEvaluating true st))
        [ConsoleLog "Sending request to API..." None;
         Fetch (mkRequest EVALUATE_URL "POST" []
                  (FormData [("cv", cvF); ("jobDescription", jobF)]))].
Proof.
  intros Hc Hj. run_handler. rewrite Hc, Hj. reflexivity.
Qed.

Lemma evaluateCV_settled_ok (st : State) (r : Response) (parsed : JSON) :
  ok r = true -> json r = inr parsed ->
  evaluateCV_settled (Resolved r) st =
  mkRun (inr tt) (setIsEvaluating false (setEvaluationReport parsed st))
        [ConsoleLog "Response received:" (Some (JNumber (status r)));
         ConsoleLog "Parsed result:" (Some parsed)].
Proof.
  intros Hok Hjson. destruct r as [s j b]. cbn [json status] in *. subst j.
  run_handler. rewrite Hok. reflexivity.
Qed.

Lemma evaluateCV_settled_rejected (st : State) (e : Exn) :
  evaluateCV_settled (Rejected e) st =
  mkRun (inr tt) (setIsEvaluating false (setError (Some EVALUATE_ERROR) st))
        [ConsoleError "Full error details:" e].
Proof. reflexivity. Qed.

Lemma evaluateCV_settled_unparsable (st : State) (r : Response) (e : Exn) :
  json r = inl e ->
  evaluateCV_settled (Resolved r) st =
  mkRun (inr tt) (setIsEvaluating false (setError (Some EVALUATE_ERROR) st))
        [ConsoleLog "Response received:" (Some (JNumber (status r)));
         ConsoleError "Full error details:" e].
Proof.
  intros Hjson. destruct r as [s j b]. cbn [json status] in *. subst j.
  reflexivity.
Qed.

Lemma evaluateCV_settled_not_ok (st : State) (r : Response) (parsed : JSON) :
  ok r = false -> json r = inr parsed ->
  evaluateCV_settled (Resolved r) st =
  mkRun (inr tt) (setIsEvaluating false (setError (Some EVALUATE_ERROR) st))
        [ConsoleLog "Response received:" (Some (JNumber (status r)));
         ConsoleLog "Parsed result:" (Some parsed);
         ConsoleError "Full error details:" (api_exception parsed)].
Proof.
  intros Hok Hjson. destruct r as [s j b]. cbn [json status] in *. subst j.
  run_handler. rewrite Hok.
  unfold api_exception. destruct (prop parsed "error"); reflexivity.
Qed.

(** Whatever the outcome, the continuation ends with the flag cleared, sends
    nothing, and throws nothing. *)
Lemma evaluateCV_settled_always (o : FetchOutcome) (st : State) :
  let run := evaluateCV_settled o st in
  value run = inr tt /\
  isEvaluating (final run) = false /\
  requests (log run) = [] /\
  cvFile (final run) = cvFile st /\ jobFile (final run) = jobFile st.
Proof.
  destruct o as [e | r].
  - rewrite evaluateCV_settled_rejected. repeat split.
  - destruct (json r) as [e | parsed] eqn:Hjson.
    + rewrite (evaluateCV_settled_unparsable st r e Hjson). repeat split.
    + destruct (ok r) eqn:Hok.
      * rewrite (evaluateCV_settled_ok st r parsed Hok Hjson). repeat split.
      * rewrite (evaluateCV_settled_not_ok st r parsed Hok Hjson). repeat split.
Qed.

(* ------------------------------------------------------------------ *)
(** ** Evaluation *)

(** C5.  When at least one of the two file cells is empty, [evaluateCV]
    sends no request (it has no effect at all), sets the error
    ['Please upload both CV and Job Description'] and leaves every other
    cell as it was; in particular the evaluating flag keeps its value, so a
    flag that was false stays false. *)
Theorem evaluate_without_both_files :
  forall (st : State),
    cvFile st = None \/ jobFile st = None ->
    let run := evaluateCV_call st in
    requests (log run) = [] /\
    log run = [] /\
    error (final run) = Some "Please upload both CV and Job Description" /\
    final run = setError (Some "Please upload both CV and Job Description") st /\
    isEvaluating (final run) = isEvaluating st /\
    cvFile (final run) = cvFile st /\ jobFile (final run) = jobFile st /\
    evaluationReport (final run) = evaluationReport st.
Proof.
  intros st H run. subst run. rewrite (evaluateCV_call_missing st H).
  repeat split.
Qed.

Lemma evaluate_without_both_files_witness :
  (cvFile initialState = None \/ jobFile initialState = None) /\
  error (final (evaluateCV_call initialState)) =
    Some "Please upload both CV and Job Description".
Proof.
  split.
  - left. reflexivity.
  - apply (evaluate_without_both_files initialState). left. reflexivity.
Defined.

(** C4.  When the request settles with a success status and a body that
    parses, the parsed value itself is written to the report cell and the
    evaluating flag is cleared; nothing else changes.  For a body with
    [matchScore] 87 and two sections, the stored report reads back
    [matchScore] 87 and exactly those two sections in the order received. *)
Theorem successful_evaluation_stores_report :
  forall (st : State) (r : Response) (parsed : JSON),
    ok r = true ->
    json r = inr parsed ->
    let st' := final (evaluateCV_settled (Resolved r) st) in
    evaluationReport st' = parsed /\
    isEvaluating st' = false /\
    st' = setIsEvaluating false (setEvaluationReport parsed st) /\
    (forall s1 s2 : JSON,
        parsed = JObject [("matchScore", JNumber 87); ("sections", JArray [s1; s2])] ->
        prop (evaluationReport st') "matchScore" = inr (Some (JNumber 87)) /\
        prop (evaluationReport st') "sections" = inr (Some (JArray [s1; s2]))).
Proof.
  intros st r parsed Hok Hjson st'. subst st'.
  rewrite (evaluateCV_settled_ok st r parsed Hok Hjson). cbn [final].
  repeat split; subst; reflexivity.
Qed.

(** C2 (as the code has it).  When the request settles with a non-success
    status, the error shown is always the fixed text
    ['Failed to evaluate CV. Please try again.'], whatever the body says;
    the report cell keeps its value (no report is set) and the evaluating
    flag is cleared.  The server's [error] text goes only into the exception
    written to the console, as ['API error: ' + text]. *)
Theorem failed_evaluation_surfaces_fixed_message :
  forall (st : State) (r : Response),
    ok r = false ->
    let run := evaluateCV_settled (Resolved r) st in
    error (final run) = Some "Failed to evaluate CV. Please try again." /\
    evaluationReport (final run) = evaluationReport st /\
    isEvaluating (final run) = false /\
    final run =
      setIsEvaluating false
        (setError (Some "Failed to evaluate CV. Please try again.") st) /\
    (forall (parsed : JSON) (text : string),
        json r = inr parsed ->
        prop parsed "error" = inr (Some (JString text)) ->
        text <> "" ->
        log run =
          [ConsoleLog "Response received:" (Some (JNumber (status r)));
           ConsoleLog "Parsed result:" (Some parsed);
           ConsoleError "Full error details:" (Error ("API error: " ++ text))]).
Proof.
  intros st r Hok run. subst run.
  destruct (json r) as [e | parsed] eqn:Hjson.
  - rewrite (evaluateCV_settled_unparsable st r e Hjson).
    repeat split. intros ? ? Habs. discriminate Habs.
  - rewrite (evaluateCV_settled_not_ok st r parsed Hok Hjson).
    repeat split. intros parsed' text Heq Hprop Htext.
    injection Heq as <-. unfold api_exception. rewrite Hprop.
    unfold api_error_message, truthy.
    destruct (String.eqb_spec text ""); [contradiction | reflexivity].
Qed.

Lemma failed_evaluation_surfaces_fixed_message_witness :
  ok parseFailure500 = false /\
  error (final (evaluateCV_settled (Resolved parseFailure500) submittingState)) =
    Some "Failed to evaluate CV. Please try again.".
Proof.
  split.
  - reflexivity.
  - apply (failed_evaluation_surfaces_fixed_message submittingState parseFailure500).
    reflexivity.
Defined.

(** C2 as stated fails: for status 500 with body
    [{ "error": "parse failure" }] the error shown does not contain
    ["parse failure"]; only the logged exception does. *)
Lemma failed_evaluation_hides_server_text :
  ok parseFailure500 = false /\
  json parseFailure500 = inr (JObject [("error", JString "parse failure")]) /\
  error (final (evaluateCV_settled (Resolved parseFailure500) submittingState)) =
    Some "Failed to evaluate CV. Please try again." /\
  includes "Failed to evaluate CV. Please try again." "parse failure" = false /\
  log (evaluateCV_settled (Resolved parseFailure500) submittingState) =
    [ConsoleLog "Response received:" (Some (JNumber 500));
     ConsoleLog "Parsed result:" (Some (JObject [("error", JString "parse failure")]));
     ConsoleError "Full error details:" (Error "API error: parse failure")] /\
  includes "API error: parse failure" "parse failure" = true.
Proof. repeat split. Qed.

Lemma successful_evaluation_stores_report_witness :
  ok report200 = true /\ json report200 = inr sampleReport /\
  evaluationReport (final (evaluateCV_settled (Resolved report200) submittingState)) =
    sampleReport.
Proof.
  split; [reflexivity | split; [reflexivity |]].
  apply (successful_evaluation_stores_report submittingState report200);
    reflexivity.
Defined.

(* ------------------------------------------------------------------ *)
(** ** Runs of [downloadReport] *)

Lemma downloadReport_call_run (st : State) :
  downloadReport_call st =
  mkRun (inr tt) st
        [Fetch (mkRequest REPORT_URL "POST"
                  [("Content-Type", "application/json")]
                  (JsonBody (evaluationReport st)))].
Proof. reflexivity. Qed.

Lemma downloadReport_settled_ok (st : State) (r : Response) (b : Blob) :
  ok r = true -> blob r = inr b ->
  downloadReport_settled (Resolved r) st =
  mkRun (inr tt) st
        [CreateObjectURL b;
         AppendAnchor REPORT_FILENAME b;
         ClickAnchor REPORT_FILENAME b;
         RevokeObjectURL b;
         RemoveAnchor].
Proof.
  intros Hok Hblob. destruct r as [s j bl]. cbn [blob] in Hblob. subst bl.
  run_handler. rewrite Hok. reflexivity.
Qed.

Lemma downloadReport_settled_rejected (st : State) (e : Exn) :
  downloadReport_settled (Rejected e) st =
  mkRun (inr tt) (setError (Some DOWNLOAD_ERROR) st)
        [ConsoleError "Error downloading report:" e].
Proof. reflexivity. Qed.

Lemma downloadReport_settled_not_ok (st : State) (r : Response) :
  ok r = false ->
  downloadReport_settled (Resolved r) st =
  mkRun (inr tt) (setError (Some DOWNLOAD_ERROR) st)
        [ConsoleError "Error downloading report:" (Error "Failed to generate PDF")].
Proof.
  intros Hok. destruct r as [s j bl]. run_handler. rewrite Hok. reflexivity.
Qed.

Lemma downloadReport_settled_unreadable (st : State) (r : Response) (e : Exn) :
  ok r = true -> blob r = inl e ->
  downloadReport_settled (Resolved r) st =
  mkRun (inr tt) (setError (Some DOWNLOAD_ERROR) st)
        [ConsoleError "Error downloading report:" e].
Proof.
  intros Hok Hblob. destruct r as [s j bl]. cbn [blob] in Hblob. subst bl.
  run_handler. rewrite Hok. reflexivity.
Qed.

(** Whatever the outcome, the continuation sends nothing, throws nothing,
    and writes no cell other than the error. *)
Lemma downloadReport_settled_always (o : FetchOutcome) (st : State) :
  let run := downloadReport_settled o st in
  value run = inr tt /\
  requests (log run) = [] /\
  (final run = st \/ final run = setError (Some DOWNLOAD_ERROR) st).
Proof.
  destruct o as [e | r].
  - rewrite downloadReport_settled_rejected. repeat split. now right.
  - destruct (ok r) eqn:Hok.
    + destruct (blob r) as [e | b] eqn:Hblob.
      * rewrite (downloadReport_settled_unreadable st r e Hok Hblob).
        repeat split. now right.
      * rewrite (downloadReport_settled_ok st r b Hok Hblob).
        repeat split. now left.
    + rewrite (downloadReport_settled_not_ok st r Hok). repeat split. now right.
Qed.

(* ------------------------------------------------------------------ *)
(** ** Export *)

(** C7.  When the export request fails (the fetch rejects, the response has
    a non-success status, or its body cannot be read), [downloadReport] sets
    the error ['Failed to download report'] and writes nothing else: both
    file cells, the stored report and the evaluating flag are as before, and
    no download is offered. *)
Theorem failed_export_only_sets_error :
  forall (st : State) (o : FetchOutcome),
    ((exists e, o = Rejected e) \/
     (exists r, o = Resolved r /\ ok r = false) \/
     (exists r e, o = Resolved r /\ blob r = inl e)) ->
    let run := downloadReport_settled o st in
    error (final run) = Some "Failed to download report" /\
    final run = setError (Some "Failed to download report") st /\
    cvFile (final run) = cvFile st /\
    jobFile (final run) = jobFile st /\
    evaluationReport (final run) = evaluationReport st /\
    isEvaluating (final run) = isEvaluating st /\
    (forall name b, ~ In (ClickAnchor name b) (log run)).
Proof.
  intros st o H run. subst run.
  assert (Hno : forall l e name b,
             ~ In (ClickAnchor name b) [ConsoleError l e]).
  { intros l e name b [Habs | []]. discriminate Habs. }
  destruct H as [[e ->] | [[r [-> Hok]] | [r [e [-> Hblob]]]]].
  - rewrite downloadReport_settled_rejected. repeat split. apply Hno.
  - rewrite (downloadReport_settled_not_ok st r Hok). repeat split. apply Hno.
  - destruct (ok r) eqn:Hok.
    + rewrite (downloadReport_settled_unreadable st r e Hok Hblob).
      repeat split. apply Hno.
    + rewrite (downloadReport_settled_not_ok st r Hok). repeat split. apply Hno.
Qed.

Lemma failed_export_only_sets_error_witness :
  (exists r, Resolved parseFailure500 = Resolved r /\ ok r = false) /\
  evaluationReport
    (final (downloadReport_settled (Resolved parseFailure500)
              (setEvaluationReport sampleReport readyState))) = sampleReport.
Proof.
  split.
  - exists parseFailure500. split; reflexivity.
  - apply (failed_export_only_sets_error
             (setEvaluationReport sampleReport readyState)
             (Resolved parseFailure500)).
    right. left. exists parseFailure500. split; reflexivity.
Defined.

(** C6 (where the code departs from it).  A session in which an export
    fails and the next export succeeds: the second export offers the
    download, yet the error of the first is still the current error.
    [downloadReport] never calls [setError(null)], unlike the intake
    handlers and [evaluateCV]. *)
Theorem successful_export_keeps_error :
  let sys :=
    session [Drop cv (mkDragEvent [sampleCv]);
             Drop jd (mkDragEvent [sampleJob]);
             ClickEvaluate;
             EvaluationSettles (Resolved report200);
             ClickDownload;
             DownloadSettles (Rejected (NetworkError "Failed to fetch"));
             ClickDownload;
             DownloadSettles (Resolved pdf200)] mount in
  error (component sys) = Some "Failed to download report" /\
  In (ClickAnchor "cv-evaluation-report.pdf" []) (trace sys) /\
  pendingDownloads sys = [] /\
  (forall st, final (downloadReport_settled (Resolved pdf200) st) = st).
Proof.
  cbv zeta. split; [reflexivity | split; [| split; [reflexivity |]]].
  - vm_compute. tauto.
  - intros st. rewrite (downloadReport_settled_ok st pdf200 []); reflexivity.
Qed.

(* ------------------------------------------------------------------ *)
(** ** Report layout *)

Lemma strict_eq_string_true (v : JSValue) (lit : string) :
  strict_eq_string v lit = true <-> v = Some (JString lit).
Proof.
  unfold strict_eq_string. split.
  - destruct v as [[| | | s | |] |]; try discriminate.
    intros H. apply String.eqb_eq in H. now subst.
  - intros ->. apply String.eqb_refl.
Qed.

Lemma strict_eq_string_false (v : JSValue) (lit : string) :
  strict_eq_string v lit = false <-> v <> Some (JString lit).
Proof.
  rewrite <- strict_eq_string_true.
  destruct (strict_eq_string v lit); split; congruence.
Qed.

Lemma sectionElement_object (props : list (string * JSON)) :
  sectionElement (JObject props) =
  if strict_eq_string (lookup "title" props) MISSING_KEYWORDS
  then andThen (description_map (lookup "description" props)) (fun keywords =>
       inr (mkSectionView (status_icons (lookup "status" props))
                          (lookup "title" props) (KeywordTokens keywords)))
  else inr (mkSectionView (status_icons (lookup "status" props))
                          (lookup "title" props)
                          (Prose (lookup "description" props))).
Proof. reflexivity. Qed.

Lemma strict_eq_string_refl (lit : string) :
  strict_eq_string (Some (JString lit)) lit = true.
Proof. apply String.eqb_refl. Qed.

Lemma renderSection_not_a_list (props : list (string * JSON)) :
  lookup "title" props = Some (JString MISSING_KEYWORDS) ->
  (forall keywords, lookup "description" props <> Some (JArray keywords)) ->
  exists e, renderSection (JObject props) = inl e.
Proof.
  intros Htitle Hdesc. unfold renderSection.
  rewrite sectionElement_object, Htitle, strict_eq_string_refl.
  destruct (lookup "description" props) as [[| | | | items |] |];
    try (eexists; reflexivity).
  now contradiction (Hdesc items).
Qed.

Lemma renderSection_keywords (props : list (string * JSON)) (keywords : list JSON) :
  lookup "title" props = Some (JString MISSING_KEYWORDS) ->
  lookup "description" props = Some (JArray keywords) ->
  renderSection (JObject props) =
  if forallb validChild keywords
  then inr (mkSectionView (status_icons (lookup "status" props))
                          (Some (JString MISSING_KEYWORDS))
                          (KeywordTokens keywords))
  else inl OBJECT_CHILD.
Proof.
  intros Htitle Hdesc. unfold renderSection. rewrite sectionElement_object.
  rewrite Htitle, Hdesc.
  rewrite strict_eq_string_refl.
  cbn [description_map andThen]. unfold commitSection, children.
  cbn [heading sectionBody child validChildV validChild andThen].
  destruct (forallb validChild keywords); reflexivity.
Qed.

Lemma renderSection_prose (props : list (string * JSON)) :
  lookup "title" props <> Some (JString MISSING_KEYWORDS) ->
  renderSection (JObject props) =
  if validChildV (lookup "title" props) && validChildV (lookup "description" props)
  then inr (mkSectionView (status_icons (lookup "status" props))
                          (lookup "title" props)
                          (Prose (lookup "description" props)))
  else inl OBJECT_CHILD.
Proof.
  intros Htitle. apply strict_eq_string_false in Htitle.
  unfold renderSection. rewrite sectionElement_object, Htitle.
  unfold commitSection, child. cbn [andThen heading sectionBody].
  destruct (validChildV (lookup "title" props)); cbn [andThen andb];
    [| reflexivity].
  destruct (validChildV (lookup "description" props)); reflexivity.
Qed.

Lemma strings_are_children (ks : list string) :
  forallb validChild (map JString ks) = true.
Proof. induction ks as [| k ks IH]; [reflexivity | exact IH]. Qed.

(** C8.  A section whose title is exactly the string ["Missing Keywords"]
    and whose description is a list of keywords is laid out as discrete
    tokens, one per keyword and in the list's order; a section with any
    other title is laid out as one prose paragraph holding its description.
    Conversely a section laid out as tokens has that title, and one laid out
    as prose has another.  Titles, descriptions and keywords are things the
    page can show: text, numbers, lists of these -- in particular a list of
    keyword strings, and a string title with a string description. *)
Theorem keyword_list_iff_missing_keywords_title :
  forall (props : list (string * JSON)),
    let section := JObject props in
    let ics := status_icons (lookup "status" props) in
    (lookup "title" props = Some (JString "Missing Keywords") ->
     forall keywords : list JSON,
       lookup "description" props = Some (JArray keywords) ->
       forallb validChild keywords = true ->
       renderSection section =
         inr (mkSectionView ics (Some (JString "Missing Keywords"))
                            (KeywordTokens keywords))) /\
    (lookup "title" props = Some (JString "Missing Keywords") ->
     forall ks : list string,
       lookup "description" props = Some (JArray (map JString ks)) ->
       renderSection section =
         inr (mkSectionView ics (Some (JString "Missing Keywords"))
                            (KeywordTokens (map JString ks)))) /\
    (lookup "title" props <> Some (JString "Missing Keywords") ->
     validChildV (lookup "title" props) = true ->
     validChildV (lookup "description" props) = true ->
     renderSection section =
       inr (mkSectionView ics (lookup "title" props)
                          (Prose (lookup "description" props)))) /\
    (forall t text : string,
       lookup "title" props = Some (JString t) ->
       t <> "Missing Keywords" ->
       lookup "description" props = Some (JString text) ->
       renderSection section =
         inr (mkSectionView ics (Some (JString t)) (Prose (Some (JString text))))) /\
    (forall (v : SectionView) (tokens : list JSON),
       renderSection section = inr v ->
       sectionBody v = KeywordTokens tokens ->
       lookup "title" props = Some (JString "Missing Keywords") /\
       lookup "description" props = Some (JArray tokens)) /\
    (forall (v : SectionView) (text : JSValue),
       renderSection section = inr v ->
       sectionBody v = Prose text ->
       lookup "title" props <> Some (JString "Missing Keywords") /\
       text = lookup "description" props).
Proof.
  intros props section ics. subst section ics.
  change "Missing Keywords" with MISSING_KEYWORDS.
  assert (Htokens : forall keywords,
             lookup "title" props = Some (JString MISSING_KEYWORDS) ->
             lookup "description" props = Some (JArray keywords) ->
             forallb validChild keywords = true ->
             renderSection (JObject props) =
               inr (mkSectionView (status_icons (lookup "status" props))
                                  (Some (JString MISSING_KEYWORDS))
                                  (KeywordTokens keywords))).
  { intros keywords Htitle Hdesc Hok.
    rewrite (renderSection_keywords props keywords Htitle Hdesc), Hok.
    reflexivity. }
  assert (Hprose : lookup "title" props <> Some (JString MISSING_KEYWORDS) ->
             validChildV (lookup "title" props) = true ->
             validChildV (lookup "description" props) = true ->
             renderSection (JObject props) =
               inr (mkSectionView (status_icons (lookup "status" props))
                                  (lookup "title" props)
                                  (Prose (lookup "description" props)))).
  { intros Htitle Ht Hd. rewrite (renderSection_prose props Htitle), Ht, Hd.
    reflexivity. }
  split; [| split; [| split; [| split; [| split]]]].
  - intros Htitle keywords Hdesc Hok. now apply Htokens.
  - intros Htitle ks Hdesc.
    apply Htokens; [exact Htitle | exact Hdesc | apply strings_are_children].
  - exact Hprose.
  - intros t text Htitle Hneq Hdesc.
    rewrite <- Htitle, <- Hdesc. apply Hprose.
    + rewrite Htitle. intros Heq. injection Heq as ->. now apply Hneq.
    + now rewrite Htitle.
    + now rewrite Hdesc.
  - intros v tokens Hrender Hbody.
    destruct (strict_eq_string (lookup "title" props) MISSING_KEYWORDS) eqn:Ht.
    + apply strict_eq_string_true in Ht. split; [exact Ht |].
      destruct (lookup "description" props) as [[| | | | items |] |] eqn:Hdesc;
        try (destruct (renderSection_not_a_list props Ht) as [e He];
             [intros keywords; rewrite Hdesc; discriminate
             | rewrite He in Hrender; discriminate Hrender]).
      rewrite (renderSection_keywords props items Ht Hdesc) in Hrender.
      destruct (forallb validChild items); [| discriminate Hrender].
      injection Hrender as <-. cbn in Hbody. congruence.
    + apply strict_eq_string_false in Ht.
      rewrite (renderSection_prose props Ht) in Hrender.
      destruct (validChildV (lookup "title" props) &&
                validChildV (lookup "description" props));
        [| discriminate Hrender].
      injection Hrender as <-. cbn in Hbody. discriminate Hbody.
  - intros v text Hrender Hbody.
    destruct (strict_eq_string (lookup "title" props) MISSING_KEYWORDS) eqn:Ht.
    + apply strict_eq_string_true in Ht.
      destruct (lookup "description" props) as [[| | | | items |] |] eqn:Hdesc;
        try (destruct (renderSection_not_a_list props Ht) as [e He];
             [intros keywords; rewrite Hdesc; discriminate
             | rewrite He in Hrender; discriminate Hrender]).
      rewrite (renderSection_keywords props items Ht Hdesc) in Hrender.
      destruct (forallb validChild items); [| discriminate Hrender].
      injection Hrender as <-. cbn in Hbody. discriminate Hbody.
    + apply strict_eq_string_false in Ht. split; [exact Ht |].
      rewrite (renderSection_prose props Ht) in Hrender.
      destruct (validChildV (lookup "title" props) &&
                validChildV (lookup "description" props));
        [| discriminate Hrender].
      injection Hrender as <-. cbn in Hbody. congruence.
Qed.

(** The report of the specification's example, as the card shows it. *)
Example sampleReport_rendered :
  renderReport (setEvaluationReport sampleReport readyState) =
  inr (Some (mkReportView
               (Some (JNumber 87))
               [mkSectionView [CheckCircle] (Some (JString "Experience"))
                              (Prose (Some (JString "Strong match")));
                mkSectionView [Clock] (Some (JString "Missing Keywords"))
                              (KeywordTokens [JString "teamwork"; JString "SQL"])])).
Proof. reflexivity. Qed.

Example missing_keywords_with_text_throws :
  renderSection (JObject [("title", JString "Missing Keywords");
                          ("status", JString "warning");
                          ("description", JString "none")]) =
  inl (TypeError "section.description.map is not a function").
Proof. reflexivity. Qed.

(** A field that is an object cannot be shown: the layout throws. *)
Example object_fields_throw :
  renderSection (JObject [("title", JString "Skills");
                          ("status", JString "success");
                          ("description", JObject [("a", JNumber 1)])]) =
    inl (Error "Objects are not valid as a React child") /\
  renderSection (JObject [("title", JString "Missing Keywords");
                          ("status", JString "warning");
                          ("description",
                           JArray [JString "SQL"; JObject [("a", JNumber 1)]])]) =
    inl (Error "Objects are not valid as a React child") /\
  renderSection (JObject [("title", JObject [("a", JNumber 1)]);
                          ("description", JString "text")]) =
    inl (Error "Objects are not valid as a React child") /\
  renderReport
    (setEvaluationReport
       (JObject [("matchScore", JObject [("a", JNumber 1)]);
                 ("sections", JArray [])]) readyState) =
    inl (Error "Objects are not valid as a React child").
Proof. repeat split. Qed.

(* ------------------------------------------------------------------ *)
(** ** At most one evaluation in flight *)

Lemma fetches_to_app (u : string) (l l' : list Effect) :
  fetches_to u (l ++ l') = (fetches_to u l ++ fetches_to u l')%list.
Proof.
  induction l as [| e l IH]; [reflexivity |].
  destruct e; cbn [fetches_to app]; try exact IH.
  destruct (url req =? u)%string; cbn [app]; now rewrite IH.
Qed.

Lemma fetches_to_no_requests (u : string) (l : list Effect) :
  requests l = [] -> fetches_to u l = [].
Proof.
  unfold requests. induction l as [| e l IH]; [reflexivity |].
  destruct e; cbn [filter is_fetch fetches_to]; auto; discriminate.
Qed.

Lemma invoke_quiet (h : M unit) (sys : System) :
  quiet h -> single_flight sys -> single_flight (invoke h sys).
Proof.
  intros Hq Hs. destruct (Hq (component sys)) as [Hflag Hlog].
  unfold single_flight, invoke in *. cbn [pendingEvaluations component].
  rewrite Hlog, app_nil_r, Hflag. exact Hs.
Qed.

Lemma handleFileUpload_quiet (e : ChangeEvent) (ty : Role) :
  quiet (handleFileUpload e ty).
Proof.
  intros st. destruct e as [[[| f rest] |]]; cbn.
  1,3: split; reflexivity.
  destruct (acceptable f); [destruct ty |]; split; reflexivity.
Qed.

Lemma handleDrop_quiet (e : DragEvent) (ty : Role) :
  quiet (handleDrop e ty).
Proof.
  intros st. destruct e as [[| f rest]]; cbn.
  - split; reflexivity.
  - destruct (acceptable f); [destruct ty |]; split; reflexivity.
Qed.

Lemma handleDragOver_quiet : quiet handleDragOver.
Proof. intros st. split; reflexivity. Qed.

Lemma handleDragLeave_quiet : quiet handleDragLeave.
Proof. intros st. split; reflexivity. Qed.

Lemma downloadReport_call_quiet : quiet downloadReport_call.
Proof. intros st. split; reflexivity. Qed.

Lemma downloadReport_settled_quiet (o : FetchOutcome) :
  quiet (downloadReport_settled o).
Proof.
  intros st.
  destruct (downloadReport_settled_always o st) as (_ & Hreq & Hfinal).
  split.
  - destruct Hfinal as [-> | ->]; reflexivity.
  - apply fetches_to_no_requests, Hreq.
Qed.

Lemma evaluateButton_enabled (st : State) :
  evaluateButton_disabled st = false ->
  exists cvF jobF,
    cvFile st = Some cvF /\ jobFile st = Some jobF /\ isEvaluating st = false.
Proof.
  unfold evaluateButton_disabled.
  destruct (cvFile st) as [cvF |], (jobFile st) as [jobF |], (isEvaluating st);
    cbn; try discriminate.
  intros _. now exists cvF, jobF.
Qed.

Lemma dispatch_single_flight (ev : UIEvent) (sys : System) :
  single_flight sys -> single_flight (dispatch ev sys).
Proof.
  intros Hs. destruct ev as [ty e | ty e | | | | | o | o]; cbn [dispatch].
  - destruct (fileInput_disabled (component sys)); [exact Hs |].
    apply invoke_quiet; [apply handleFileUpload_quiet | exact Hs].
  - apply invoke_quiet; [apply handleDrop_quiet | exact Hs].
  - apply invoke_quiet; [apply handleDragOver_quiet | exact Hs].
  - apply invoke_quiet; [apply handleDragLeave_quiet | exact Hs].
  - destruct (evaluateButton_disabled (component sys)) eqn:Hdis; [exact Hs |].
    destruct (evaluateButton_enabled _ Hdis) as (cvF & jobF & Hc & Hj & Hidle).
    unfold single_flight, invoke in *. rewrite Hidle in Hs.
    rewrite (evaluateCV_call_ready _ cvF jobF Hc Hj).
    cbn [pendingEvaluations component final log isEvaluating setError
         setIsEvaluating].
    rewrite length_app, Hs. reflexivity.
  - destruct (reportCard_rendered (component sys)); [| exact Hs].
    apply invoke_quiet; [apply downloadReport_call_quiet | exact Hs].
  - destruct (pendingEvaluations sys) as [| req rest] eqn:Hpending; [exact Hs |].
    destruct (evaluateCV_settled_always o (component sys))
      as (_ & Hflag & Hreq & _).
    unfold single_flight, invoke in *.
    cbn [pendingEvaluations component] in *.
    rewrite Hflag, (fetches_to_no_requests _ _ Hreq), app_nil_r.
    rewrite Hpending in Hs.
    destruct (isEvaluating (component sys)); cbn [length] in Hs;
      [| discriminate Hs].
    destruct rest; [reflexivity | discriminate Hs].
  - destruct (pendingDownloads sys) as [| req rest]; [exact Hs |].
    apply (invoke_quiet (downloadReport_settled o)
             (mkSystem (component sys) (pendingEvaluations sys) rest (trace sys)));
      [apply downloadReport_settled_quiet | exact Hs].
Qed.

Lemma session_single_flight (evs : list UIEvent) (sys : System) :
  single_flight sys -> single_flight (session evs sys).
Proof.
  revert sys. induction evs as [| ev evs IH]; intros sys Hs; [exact Hs |].
  cbn [session fold_left]. apply IH, dispatch_single_flight, Hs.
Qed.

(** C1 (as the code has it).  In every session of the mounted component at
    most one evaluation request is pending.  While one is pending the
    Evaluate button is disabled, so a click on it reaches no handler: it
    sends nothing and changes nothing.  When the button is enabled, a click
    sends exactly one request. *)
Theorem evaluate_button_single_flight :
  forall (evs : list UIEvent),
    let sys := session evs mount in
    (length (pendingEvaluations sys) <= 1)%nat /\
    (pendingEvaluations sys <> [] ->
       evaluateButton_disabled (component sys) = true /\
       dispatch ClickEvaluate sys = sys) /\
    (evaluateButton_disabled (component sys) = false ->
       length (pendingEvaluations (dispatch ClickEvaluate sys)) = 1%nat /\
       length (fetches_to EVALUATE_URL (log (evaluateCV_call (component sys)))) = 1%nat).
Proof.
  intros evs sys.
  assert (Hs : single_flight sys).
  { apply session_single_flight. reflexivity. }
  assert (Hs' : single_flight (dispatch ClickEvaluate sys)).
  { apply dispatch_single_flight, Hs. }
  split; [| split].
  - unfold single_flight in Hs. rewrite Hs.
    destruct (isEvaluating (component sys)); lia.
  - intros Hpending.
    assert (Hflag : isEvaluating (component sys) = true).
    { unfold single_flight in Hs.
      destruct (isEvaluating (component sys)); [reflexivity |].
      destruct (pendingEvaluations sys); [contradiction | discriminate Hs]. }
    assert (Hdis : evaluateButton_disabled (component sys) = true).
    { unfold evaluateButton_disabled. rewrite Hflag. apply orb_true_r. }
    split; [exact Hdis |]. cbn [dispatch]. rewrite Hdis. reflexivity.
  - intros Hen.
    destruct (evaluateButton_enabled _ Hen) as (cvF & jobF & Hc & Hj & Hidle).
    rewrite (evaluateCV_call_ready _ cvF jobF Hc Hj). split; [| reflexivity].
    unfold single_flight in Hs'. rewrite Hs'. cbn [dispatch]. rewrite Hen.
    unfold invoke. rewrite (evaluateCV_call_ready _ cvF jobF Hc Hj). reflexivity.
Qed.

(** C1 as stated fails for the handler itself: [evaluateCV] does not look
    at the evaluating flag, so a second call made while the first request
    is pending sends a second request. *)
Lemma second_evaluateCV_call_sends_again :
  final (evaluateCV_call readyState) = submittingState /\
  requests (log (evaluateCV_call readyState)) = [Fetch evaluateRequest] /\
  requests (log (evaluateCV_call submittingState)) = [Fetch evaluateRequest] /\
  requests (log (evaluateCV_call submittingState)) <> [].
Proof. repeat split. discriminate. Qed.

(* ------------------------------------------------------------------ *)
(** ** More on file intake *)

Lemma handleFileUpload_run (e : ChangeEvent) (ty : Role) (st : State) :
  handleFileUpload e ty st = mkRun (inr tt) (intake (input_file e) ty st) [].
Proof.
  unfold handleFileUpload, intake, input_file.
  destruct e as [[[| f rest] |]]; cbn [target_files hd_error]; try reflexivity.
  destruct (acceptable f); [apply store_run | apply reject_run].
Qed.

Lemma handleDrop_run (e : DragEvent) (ty : Role) (st : State) :
  handleDrop e ty st =
  mkRun (inr tt) (intake (dropped_file e) ty st)
        [PreventDefault; ClassListRemove HIGHLIGHT].
Proof.
  unfold handleDrop, intake, dropped_file.
  destruct e as [[| f rest]]; cbn [dataTransfer_files hd_error]; try reflexivity.
  destruct (acceptable f); [destruct ty |]; reflexivity.
Qed.

Lemma intake_frame (file : option File) (ty : Role) (st : State) :
  slot (other ty) (intake file ty st) = slot (other ty) st /\
  evaluationReport (intake file ty st) = evaluationReport st /\
  isEvaluating (intake file ty st) = isEvaluating st /\
  result (intake file ty st) = result st.
Proof.
  unfold intake. destruct file as [f |]; [destruct (acceptable f) |];
    destruct ty; repeat split.
Qed.

(** X1.  An intake event for one role, through the file input or a drop and
    whatever it carries, never throws, sends no request, and writes neither
    the slot of the other role, nor the report, nor the evaluating flag. *)
Theorem intake_touches_only_its_slot :
  forall (st : State) (ty : Role) (e : ChangeEvent) (d : DragEvent),
    let viaInput := handleFileUpload e ty st in
    let viaDrop := handleDrop d ty st in
    value viaInput = inr tt /\ value viaDrop = inr tt /\
    log viaInput = [] /\ requests (log viaDrop) = [] /\
    slot (other ty) (final viaInput) = slot (other ty) st /\
    slot (other ty) (final viaDrop) = slot (other ty) st /\
    evaluationReport (final viaInput) = evaluationReport st /\
    evaluationReport (final viaDrop) = evaluationReport st /\
    isEvaluating (final viaInput) = isEvaluating st /\
    isEvaluating (final viaDrop) = isEvaluating st.
Proof.
  intros st ty e d viaInput viaDrop. subst viaInput viaDrop.
  rewrite handleFileUpload_run, handleDrop_run. cbn [value final log].
  destruct (intake_frame (input_file e) ty st) as (H1 & H2 & H3 & _).
  destruct (intake_frame (dropped_file d) ty st) as (H4 & H5 & H6 & _).
  repeat split; assumption.
Qed.

(** X2.  Of a list of several files only the first is looked at: the
    outcome does not depend on the files after it, so a first file that is
    refused is not replaced by a later one that would pass. *)
Theorem only_first_file_counts :
  forall (st : State) (ty : Role) (f : File) (rest : list File),
    final (handleFileUpload (mkChangeEvent (Some (f :: rest))) ty st) =
      final (handleFileUpload (mkChangeEvent (Some [f])) ty st) /\
    final (handleDrop (mkDragEvent (f :: rest)) ty st) =
      final (handleDrop (mkDragEvent [f]) ty st) /\
    (acceptable f = false ->
     slot ty (final (handleDrop (mkDragEvent (f :: rest)) ty st)) = slot ty st /\
     slot ty (final (handleFileUpload (mkChangeEvent (Some (f :: rest))) ty st)) =
       slot ty st).
Proof.
  intros st ty f rest.
  rewrite !handleFileUpload_run, !handleDrop_run. cbn [final].
  unfold input_file, dropped_file. cbn [target_files dataTransfer_files hd_error].
  split; [reflexivity | split; [reflexivity |]].
  intros Hbad. unfold intake. rewrite Hbad. destruct ty; split; reflexivity.
Qed.

(** X3.  The drag handlers.  Each calls [preventDefault] first; drag-over
    adds the highlight class, drag-leave and drop remove it.  Drag-over and
    drag-leave write no state cell; a drop has the same two effects whether
    its file is accepted, refused or missing. *)
Theorem drag_handlers_effects :
  forall (st : State) (ty : Role) (d : DragEvent),
    handleDragOver st =
      mkRun (inr tt) st [PreventDefault; ClassListAdd "border-blue-500"] /\
    handleDragLeave st =
      mkRun (inr tt) st [PreventDefault; ClassListRemove "border-blue-500"] /\
    log (handleDrop d ty st) =
      [PreventDefault; ClassListRemove "border-blue-500"].
Proof.
  intros st ty d. rewrite handleDrop_run. repeat split.
Qed.

(* ------------------------------------------------------------------ *)
(** ** More on evaluation *)

(** X4.  Called with both files chosen, [evaluateCV] sends exactly one
    request: a POST to the evaluation endpoint whose form data has the part
    [cv] with the CV file and then the part [jobDescription] with the job
    file.  It sets the evaluating flag and clears the error; the file cells
    and the report of an earlier evaluation stay as they are. *)
Theorem evaluate_call_sends_one_request :
  forall (st : State) (cvF jobF : File),
    cvFile st = Some cvF ->
    jobFile st = Some jobF ->
    let run := evaluateCV_call st in
    requests (log run) =
      [Fetch (mkRequest
                "http://cv-evaluator-backend-production.up.railway.app:3000/api/evaluate"
                "POST" []
                (FormData [("cv", cvF); ("jobDescription", jobF)]))] /\
    value run = inr tt /\
    isEvaluating (final run) = true /\
    error (final run) = None /\
    evaluationReport (final run) = evaluationReport st /\
    cvFile (final run) = cvFile st /\ jobFile (final run) = jobFile st.
Proof.
  intros st cvF jobF Hc Hj run. subst run.
  rewrite (evaluateCV_call_ready st cvF jobF Hc Hj). repeat split.
Qed.

Lemma evaluate_call_sends_one_request_witness :
  cvFile readyState = Some sampleCv /\ jobFile readyState = Some sampleJob /\
  isEvaluating (final (evaluateCV_call readyState)) = true.
Proof.
  split; [reflexivity | split; [reflexivity |]].
  apply (evaluate_call_sends_one_request readyState sampleCv sampleJob);
    reflexivity.
Defined.

Lemma evaluateCV_settled_failed (o : FetchOutcome) (st : State) :
  evaluation_failed o = true ->
  final (evaluateCV_settled o st) =
  setIsEvaluating false (setError (Some EVALUATE_ERROR) st).
Proof.
  unfold evaluation_failed. destruct o as [e | r].
  - intros _. now rewrite evaluateCV_settled_rejected.
  - destruct (json r) as [e | parsed] eqn:Hjson.
    + intros _. now rewrite (evaluateCV_settled_unparsable st r e Hjson).
    + intros Hok. apply negb_true_iff in Hok.
      now rewrite (evaluateCV_settled_not_ok st r parsed Hok Hjson).
Qed.

(** X5.  Every way an evaluation can fail -- the fetch rejects, the body is
    not JSON, or the status is not a success -- ends in the same state: the
    error ['Failed to evaluate CV. Please try again.'], the evaluating flag
    cleared, and the report of an earlier evaluation still in place. *)
Theorem evaluation_failure_is_uniform :
  forall (st : State) (o : FetchOutcome),
    evaluation_failed o = true ->
    let st' := final (evaluateCV_settled o st) in
    st' = setIsEvaluating false
            (setError (Some "Failed to evaluate CV. Please try again.") st) /\
    error st' = Some "Failed to evaluate CV. Please try again." /\
    isEvaluating st' = false /\
    evaluationReport st' = evaluationReport st.
Proof.
  intros st o H st'. subst st'. rewrite (evaluateCV_settled_failed o st H).
  repeat split.
Qed.

Lemma evaluation_failure_is_uniform_witness :
  evaluation_failed (Rejected (NetworkError "Failed to fetch")) = true /\
  evaluationReport
    (final (evaluateCV_settled (Rejected (NetworkError "Failed to fetch"))
              (setEvaluationReport sampleReport submittingState))) = sampleReport.
Proof.
  split; [reflexivity |].
  apply (evaluation_failure_is_uniform
           (setEvaluationReport sampleReport submittingState)
           (Rejected (NetworkError "Failed to fetch"))).
  reflexivity.
Defined.

(** X6.  However the request settles, the continuation of [evaluateCV]
    lets no exception escape, ends with the evaluating flag cleared, sends
    no further request and does not write the file cells; the error cell is
    written only on failure. *)
Theorem evaluation_always_returns_to_idle :
  forall (st : State) (o : FetchOutcome),
    let run := evaluateCV_settled o st in
    value run = inr tt /\
    isEvaluating (final run) = false /\
    requests (log run) = [] /\
    cvFile (final run) = cvFile st /\
    jobFile (final run) = jobFile st /\
    (evaluation_failed o = false -> error (final run) = error st).
Proof.
  intros st o run.
  destruct (evaluateCV_settled_always o st) as (Hv & Hf & Hr & Hc & Hj).
  subst run. repeat split; try assumption.
  unfold evaluation_failed. destruct o as [e | r]; [discriminate |].
  destruct (json r) as [e | parsed] eqn:Hjson; [discriminate |].
  intros Hok. apply negb_false_iff in Hok.
  now rewrite (evaluateCV_settled_ok st r parsed Hok Hjson).
Qed.

(** X7.  What is logged for a non-success response.  When the body is an
    object whose [error] property is absent or falsy (empty string, zero,
    [false], [null]) the logged exception reads
    ['API error: Unknown error']; when the body is [null] the read of
    [result.error] itself throws and that [TypeError] is logged.  The error
    shown is the fixed text in both cases. *)
Theorem failed_evaluation_unknown_error :
  forall (st : State) (r : Response),
    ok r = false ->
    let run := evaluateCV_settled (Resolved r) st in
    (forall props,
        json r = inr (JObject props) ->
        truthyV (lookup "error" props) = false ->
        log run =
          [ConsoleLog "Response received:" (Some (JNumber (status r)));
           ConsoleLog "Parsed result:" (Some (JObject props));
           ConsoleError "Full error details:" (Error "API error: Unknown error")]) /\
    (json r = inr JNull ->
     log run =
       [ConsoleLog "Response received:" (Some (JNumber (status r)));
        ConsoleLog "Parsed result:" (Some JNull);
        ConsoleError "Full error details:"
          (TypeError "Cannot read properties of null (reading 'error')")]) /\
    error (final run) = Some "Failed to evaluate CV. Please try again.".
Proof.
  intros st r Hok run. subst run. split; [| split].
  - intros props Hjson Hfalsy.
    rewrite (evaluateCV_settled_not_ok st r (JObject props) Hok Hjson).
    cbn [log]. unfold api_exception, api_error_message. cbn [prop].
    destruct (lookup "error" props) as [e |]; [| reflexivity].
    cbn [truthyV] in Hfalsy. rewrite Hfalsy. reflexivity.
  - intros Hjson.
    rewrite (evaluateCV_settled_not_ok st r JNull Hok Hjson). reflexivity.
  - rewrite (evaluateCV_settled_failed (Resolved r) st); [reflexivity |].
    unfold evaluation_failed. destruct (json r); [reflexivity |].
    now rewrite Hok.
Qed.

Lemma failed_evaluation_unknown_error_witness :
  ok (mkResponse 404 (inr (JObject [])) (inr [])) = false /\
  error (final (evaluateCV_settled
                  (Resolved (mkResponse 404 (inr (JObject [])) (inr [])))
                  submittingState)) =
    Some "Failed to evaluate CV. Please try again.".
Proof.
  split; [reflexivity |].
  apply (failed_evaluation_unknown_error submittingState
           (mkResponse 404 (inr (JObject [])) (inr []))).
  reflexivity.
Defined.

(** X8.  A success response whose body parses to a falsy value ([null],
    [false], [0], the empty string) is stored like any other: the report
    cell becomes that value, so no report card is shown, and no error is
    raised either. *)
Theorem falsy_success_body_shows_nothing :
  forall (st : State) (r : Response) (parsed : JSON),
    ok r = true ->
    json r = inr parsed ->
    truthy parsed = false ->
    let st' := final (evaluateCV_settled (Resolved r) st) in
    evaluationReport st' = parsed /\
    reportCard_rendered st' = false /\
    renderReport st' = inr None /\
    error st' = error st /\
    isEvaluating st' = false.
Proof.
  intros st r parsed Hok Hjson Hfalsy st'. subst st'.
  rewrite (evaluateCV_settled_ok st r parsed Hok Hjson). cbn [final].
  unfold renderReport, reportCard_rendered.
  cbn [evaluationReport setIsEvaluating setEvaluationReport].
  rewrite Hfalsy. repeat split.
Qed.

Lemma falsy_success_body_shows_nothing_witness :
  ok (mkResponse 200 (inr JNull) (inr [])) = true /\
  json (mkResponse 200 (inr JNull) (inr [])) = inr JNull /\
  truthy JNull = false /\
  renderReport
    (final (evaluateCV_settled (Resolved (mkResponse 200 (inr JNull) (inr [])))
              submittingState)) = inr None.
Proof.
  split; [reflexivity | split; [reflexivity | split; [reflexivity |]]].
  apply (falsy_success_body_shows_nothing submittingState
           (mkResponse 200 (inr JNull) (inr [])) JNull); reflexivity.
Defined.

(* ------------------------------------------------------------------ *)
(** ** More on export *)

(** X9.  When the export request answers with a success status and a
    readable body, [downloadReport] offers exactly one download, named
    [cv-evaluation-report.pdf] and holding the received blob; the object URL
    made for it is revoked after the click and the anchor removed; no state
    cell is written and no exception escapes. *)
Theorem successful_export_offers_one_download :
  forall (st : State) (r : Response) (b : Blob),
    ok r = true ->
    blob r = inr b ->
    let run := downloadReport_settled (Resolved r) st in
    downloads (log run) = [("cv-evaluation-report.pdf", b)] /\
    log run =
      [CreateObjectURL b;
       AppendAnchor "cv-evaluation-report.pdf" b;
       ClickAnchor "cv-evaluation-report.pdf" b;
       RevokeObjectURL b;
       RemoveAnchor] /\
    final run = st /\
    value run = inr tt.
Proof.
  intros st r b Hok Hblob run. subst run.
  rewrite (downloadReport_settled_ok st r b Hok Hblob). repeat split.
Qed.

Lemma successful_export_offers_one_download_witness :
  ok pdf200 = true /\ blob pdf200 = inr [] /\
  downloads (log (downloadReport_settled (Resolved pdf200) readyState)) =
    [("cv-evaluation-report.pdf", [])].
Proof.
  split; [reflexivity | split; [reflexivity |]].
  apply (successful_export_offers_one_download readyState pdf200 []);
    reflexivity.
Defined.

(** X10.  A failed export offers no download, whatever the failure; a
    download is offered only for a success status with a readable body. *)
Theorem download_only_on_success :
  forall (st : State) (o : FetchOutcome),
    downloads (log (downloadReport_settled o st)) <> [] ->
    exists r b, o = Resolved r /\ ok r = true /\ blob r = inr b /\
                downloads (log (downloadReport_settled o st)) =
                  [("cv-evaluation-report.pdf", b)] /\
                final (downloadReport_settled o st) = st.
Proof.
  intros st o H. destruct o as [e | r].
  - rewrite downloadReport_settled_rejected in H. now contradiction H.
  - destruct (ok r) eqn:Hok.
    + destruct (blob r) as [e | b] eqn:Hblob.
      * rewrite (downloadReport_settled_unreadable st r e Hok Hblob) in H.
        now contradiction H.
      * exists r, b.
        rewrite (downloadReport_settled_ok st r b Hok Hblob).
        repeat split; assumption.
    + rewrite (downloadReport_settled_not_ok st r Hok) in H.
      now contradiction H.
Qed.

Lemma download_only_on_success_witness :
  downloads (log (downloadReport_settled (Resolved pdf200) readyState)) <> [] /\
  exists r b, Resolved pdf200 = Resolved r /\ ok r = true /\ blob r = inr b /\
              downloads (log (downloadReport_settled (Resolved pdf200) readyState)) =
                [("cv-evaluation-report.pdf", b)] /\
              final (downloadReport_settled (Resolved pdf200) readyState) = readyState.
Proof.
  split; [discriminate |].
  apply (download_only_on_success readyState (Resolved pdf200)). discriminate.
Defined.

(* ------------------------------------------------------------------ *)
(** ** Sessions: what every event preserves *)

Lemma requests_nil_no_fetch (l : list Effect) :
  requests l = [] -> forall req, ~ In (Fetch req) l.
Proof.
  unfold requests. intros H req Hin.
  assert (Hf : In (Fetch req) (filter is_fetch l)).
  { apply filter_In. split; [exact Hin | reflexivity]. }
  rewrite H in Hf. exact Hf.
Qed.

Lemma intake_change (file : option File) (ty : Role) (st : State) (l : list Effect) :
  requests l = [] -> change st (intake file ty st) l.
Proof.
  intros Hl. unfold intake. destruct file as [f |].
  - destruct (acceptable f) eqn:Hacc.
    + now apply change_accept.
    + now apply change_reject.
  - now apply change_reject.
Qed.

Lemma evaluateCV_settled_change (o : FetchOutcome) (st : State) :
  change st (final (evaluateCV_settled o st)) (log (evaluateCV_settled o st)).
Proof.
  destruct (evaluateCV_settled_always o st) as (_ & _ & Hreq & _).
  destruct (evaluation_failed o) eqn:Hfail.
  - rewrite (evaluateCV_settled_failed o st Hfail). now apply change_fail.
  - unfold evaluation_failed in Hfail. destruct o as [e | r]; [discriminate |].
    destruct (json r) as [e | parsed] eqn:Hjson; [discriminate |].
    apply negb_false_iff in Hfail.
    rewrite (evaluateCV_settled_ok st r parsed Hfail Hjson) in *.
    now apply change_succeed.
Qed.

Lemma downloadReport_settled_change (o : FetchOutcome) (st : State) :
  change st (final (downloadReport_settled o st))
         (log (downloadReport_settled o st)).
Proof.
  destruct (downloadReport_settled_always o st) as (_ & Hreq & [Hf | Hf]);
    rewrite Hf.
  - now apply change_nothing.
  - now apply change_export_fail.
Qed.

(** Every event changes the component in one of the ways of [change] and
    only appends to the trace. *)
Lemma dispatch_change (ev : UIEvent) (sys : System) :
  exists l,
    trace (dispatch ev sys) = (trace sys ++ l)%list /\
    change (component sys) (component (dispatch ev sys)) l.
Proof.
  assert (Hidle : exists l, trace sys = (trace sys ++ l)%list /\
                            change (component sys) (component sys) l).
  { exists []. split; [now rewrite app_nil_r | now apply change_nothing]. }
  destruct ev as [ty e | ty e | | | | | o | o]; cbn [dispatch].
  - destruct (fileInput_disabled (component sys)); [exact Hidle |].
    unfold invoke. rewrite handleFileUpload_run. cbn [trace component final log].
    exists []. split; [reflexivity | now apply intake_change].
  - unfold invoke. rewrite handleDrop_run. cbn [trace component final log].
    eexists. split; [reflexivity | now apply intake_change].
  - eexists. split; [reflexivity | now apply change_nothing].
  - eexists. split; [reflexivity | now apply change_nothing].
  - destruct (evaluateButton_disabled (component sys)) eqn:Hdis; [exact Hidle |].
    destruct (evaluateButton_enabled _ Hdis) as (cvF & jobF & Hc & Hj & Hflag).
    unfold invoke. rewrite (evaluateCV_call_ready _ cvF jobF Hc Hj).
    cbn [trace component final log].
    eexists. split; [reflexivity | now apply (@change_submit _ cvF jobF)].
  - destruct (reportCard_rendered (component sys)) eqn:Hcard; [| exact Hidle].
    unfold invoke. rewrite downloadReport_call_run.
    cbn [trace component final log].
    eexists. split; [reflexivity | now apply change_export].
  - destruct (pendingEvaluations sys) as [| req rest]; [exact Hidle |].
    unfold invoke. cbn [trace component].
    eexists. split; [reflexivity | apply evaluateCV_settled_change].
  - destruct (pendingDownloads sys) as [| req rest]; [exact Hidle |].
    unfold invoke. cbn [trace component].
    eexists. split; [reflexivity | apply downloadReport_settled_change].
Qed.

Lemma slot_setSlot_cases (ty ty' : Role) (f : File) (st : State) (g : File) :
  slot ty' (setError None (setSlot ty (Some f) st)) = Some g ->
  g = f \/ slot ty' st = Some g.
Proof.
  destruct ty, ty'; cbn; intros H; (injection H as <-; now left) || now right.
Qed.

Lemma change_sound (st st' : State) (l : list Effect) :
  change st st' l -> sound st -> sound st'.
Proof.
  intros Hch Hs. pose proof Hs as (Hslots & Hflag & Herr & Hres).
  destruct Hch as [st l Hl | st ty f l Hacc Hl | st l Hl | st cvF jobF Hc Hj Hi
                  | st parsed l Hl | st l Hl | st Ht | st l Hl];
    try exact Hs; unfold sound;
    (split; [| split; [| split]]); try assumption; try discriminate;
    try (cbn; tauto).
  - intros ty' g Hg.
    destruct (slot_setSlot_cases ty ty' f st g Hg) as [-> | Hold];
      [exact Hacc | exact (Hslots ty' g Hold)].
  - intros Hev.
    assert (Hev' : isEvaluating st = true) by (destruct ty; exact Hev).
    destruct (Hflag Hev') as [H1 H2].
    destruct ty; cbn; split; (reflexivity || assumption).
  - destruct ty; exact Hres.
  - intros _. cbn. rewrite Hc, Hj. split; reflexivity.
Qed.

Lemma change_well_sent (st st' : State) (l : list Effect) :
  change st st' l -> sound st ->
  forall req, In (Fetch req) l -> well_sent req.
Proof.
  intros Hch (Hslots & _) req Hin.
  destruct Hch as [st l Hl | st ty f l Hacc Hl | st l Hl | st cvF jobF Hc Hj Hi
                  | st parsed l Hl | st l Hl | st Ht | st l Hl];
    try (exfalso; exact (requests_nil_no_fetch l Hl req Hin)).
  - destruct Hin as [Habs | [Heq | []]]; [discriminate Habs |].
    injection Heq as <-. left. exists cvF, jobF. repeat split.
    + apply (Hslots cv cvF Hc).
    + apply (Hslots jd jobF Hj).
  - destruct Hin as [Heq | []]. injection Heq as <-.
    right. exists (evaluationReport st). split; [reflexivity | exact Ht].
Qed.

Lemma mount_sound : sound_system mount.
Proof.
  split.
  - split; [| split; [| split]].
    + intros ty f. destruct ty; discriminate.
    + discriminate.
    + now left.
    + reflexivity.
  - intros req [].
Qed.

Lemma dispatch_sound (ev : UIEvent) (sys : System) :
  sound_system sys -> sound_system (dispatch ev sys).
Proof.
  intros [Hs Hsent].
  destruct (dispatch_change ev sys) as (l & Htrace & Hch).
  split.
  - exact (change_sound _ _ _ Hch Hs).
  - intros req Hin. rewrite Htrace in Hin. apply in_app_or in Hin.
    destruct Hin as [Hin | Hin];
      [exact (Hsent req Hin) | exact (change_well_sent _ _ _ Hch Hs req Hin)].
Qed.

Lemma session_sound (evs : list UIEvent) (sys : System) :
  sound_system sys -> sound_system (session evs sys).
Proof.
  revert sys. induction evs as [| ev evs IH]; intros sys Hs; [exact Hs |].
  cbn [session fold_left]. apply IH, dispatch_sound, Hs.
Qed.

Lemma session_app (evs more : list UIEvent) (sys : System) :
  session (evs ++ more) sys = session more (session evs sys).
Proof. unfold session. apply fold_left_app. Qed.

(* ------------------------------------------------------------------ *)
(** ** Sessions: properties of every reachable state *)

(** X11.  In every session, a file held in a slot has passed the intake
    test: its declared type is ['application/pdf'] and its size is at most
    5,242,880 bytes. *)
Theorem slots_hold_only_valid_pdfs :
  forall (evs : list UIEvent) (ty : Role) (f : File),
    slot ty (component (session evs mount)) = Some f ->
    type f = "application/pdf" /\ size f <= 5242880.
Proof.
  intros evs ty f Hf.
  destruct (session_sound evs mount mount_sound) as [(Hslots & _) _].
  apply acceptable_iff. exact (Hslots ty f Hf).
Qed.

Lemma slots_hold_only_valid_pdfs_witness :
  slot cv (component (session [Drop cv (mkDragEvent [sampleCv])] mount)) =
    Some sampleCv /\
  (type sampleCv = "application/pdf" /\ size sampleCv <= 5242880).
Proof.
  split; [reflexivity |].
  apply (slots_hold_only_valid_pdfs [Drop cv (mkDragEvent [sampleCv])] cv sampleCv).
  reflexivity.
Defined.

Lemma urls_differ : EVALUATE_URL <> REPORT_URL.
Proof. apply String.eqb_neq. reflexivity. Qed.

(** X12.  In every session, every request sent to the evaluation endpoint
    is a POST whose form data is exactly the part [cv] followed by the part
    [jobDescription], each holding a file that passed the intake test. *)
Theorem evaluation_requests_carry_valid_files :
  forall (evs : list UIEvent) (req : Request),
    In (Fetch req) (trace (session evs mount)) ->
    url req = EVALUATE_URL ->
    exists cvF jobF,
      req = mkRequest EVALUATE_URL "POST" []
                      (FormData [("cv", cvF); ("jobDescription", jobF)]) /\
      (type cvF = "application/pdf" /\ size cvF <= 5242880) /\
      (type jobF = "application/pdf" /\ size jobF <= 5242880).
Proof.
  intros evs req Hin Hurl.
  destruct (session_sound evs mount mount_sound) as [_ Hsent].
  destruct (Hsent req Hin) as [(cvF & jobF & -> & H1 & H2) | (report & -> & _)].
  - exists cvF, jobF. split; [reflexivity |].
    split; apply acceptable_iff; assumption.
  - cbn in Hurl. symmetry in Hurl. now apply urls_differ in Hurl.
Qed.

Lemma evaluation_requests_carry_valid_files_witness :
  In (Fetch evaluateRequest)
     (trace (session [Drop cv (mkDragEvent [sampleCv]);
                      Drop jd (mkDragEvent [sampleJob]);
                      ClickEvaluate] mount)) /\
  url evaluateRequest = EVALUATE_URL /\
  exists cvF jobF,
    evaluateRequest = mkRequest EVALUATE_URL "POST" []
                        (FormData [("cv", cvF); ("jobDescription", jobF)]) /\
    (type cvF = "application/pdf" /\ size cvF <= 5242880) /\
    (type jobF = "application/pdf" /\ size jobF <= 5242880).
Proof.
  assert (Hin : In (Fetch evaluateRequest)
                   (trace (session [Drop cv (mkDragEvent [sampleCv]);
                                    Drop jd (mkDragEvent [sampleJob]);
                                    ClickEvaluate] mount))).
  { vm_compute. tauto. }
  split; [exact Hin | split; [reflexivity |]].
  apply (evaluation_requests_carry_valid_files _ evaluateRequest Hin).
  reflexivity.
Defined.

Lemma dispatch_export_origin (ev : UIEvent) (sys : System) (req : Request) :
  In (Fetch req) (trace (dispatch ev sys)) ->
  url req = REPORT_URL ->
  In (Fetch req) (trace sys) \/
  (ev = ClickDownload /\
   truthy (evaluationReport (component sys)) = true /\
   req = reportRequest_of (evaluationReport (component sys))).
Proof.
  intros Hin Hurl.
  assert (Hquiet : forall (h : M unit) (s : System),
             trace s = trace sys ->
             requests (log (h (component s))) = [] ->
             In (Fetch req) (trace (invoke h s)) ->
             In (Fetch req) (trace sys)).
  { intros h s Hs Hno H. unfold invoke in H. cbn [trace] in H.
    apply in_app_or in H. destruct H as [H | H]; [now rewrite <- Hs |].
    now apply requests_nil_no_fetch in H. }
  destruct ev as [ty e | ty e | | | | | o | o]; cbn [dispatch] in Hin.
  - left. destruct (fileInput_disabled (component sys)); [exact Hin |].
    apply (Hquiet _ sys eq_refl) in Hin; [exact Hin |].
    now rewrite handleFileUpload_run.
  - left. apply (Hquiet _ sys eq_refl) in Hin; [exact Hin |].
    now rewrite handleDrop_run.
  - left. now apply (Hquiet _ sys eq_refl) in Hin.
  - left. now apply (Hquiet _ sys eq_refl) in Hin.
  - left. destruct (evaluateButton_disabled (component sys)) eqn:Hdis;
      [exact Hin |].
    destruct (evaluateButton_enabled _ Hdis) as (cvF & jobF & Hc & Hj & _).
    unfold invoke in Hin. rewrite (evaluateCV_call_ready _ cvF jobF Hc Hj) in Hin.
    cbn [trace log] in Hin. apply in_app_or in Hin.
    destruct Hin as [Hin | [Habs | [Heq | []]]];
      [exact Hin | discriminate Habs |].
    injection Heq as <-. cbn in Hurl. now apply urls_differ in Hurl.
  - destruct (reportCard_rendered (component sys)) eqn:Hcard; [| now left].
    unfold invoke in Hin. rewrite downloadReport_call_run in Hin.
    cbn [trace log] in Hin. apply in_app_or in Hin.
    destruct Hin as [Hin | [Heq | []]]; [now left |].
    right. injection Heq as <-. repeat split. exact Hcard.
  - left. destruct (pendingEvaluations sys) as [| r rest]; [exact Hin |].
    apply (Hquiet _ _ eq_refl) in Hin; [exact Hin |].
    apply evaluateCV_settled_always.
  - left. destruct (pendingDownloads sys) as [| r rest]; [exact Hin |].
    apply (Hquiet _ _ eq_refl) in Hin; [exact Hin |].
    apply downloadReport_settled_always.
Qed.

(** X13.  In every session, every request sent to the export endpoint
    comes from a click on Download and is a POST with a JSON content type
    whose body is the report held in the report cell at that click, which is
    truthy: the export is never sent for the initial [null] report, because
    the Download button exists only inside the report card. *)
Theorem export_requests_carry_a_report :
  forall (evs : list UIEvent) (req : Request),
    In (Fetch req) (trace (session evs mount)) ->
    url req = REPORT_URL ->
    exists before after,
      evs = (before ++ ClickDownload :: after)%list /\
      req = mkRequest REPORT_URL "POST"
                      [("Content-Type", "application/json")]
                      (JsonBody (evaluationReport
                                   (component (session before mount)))) /\
      truthy (evaluationReport (component (session before mount))) = true.
Proof.
  intros evs req. induction evs as [| ev evs IH] using rev_ind; intros Hin Hurl.
  - destruct Hin.
  - rewrite session_app in Hin. cbn [session fold_left] in Hin.
    destruct (dispatch_export_origin ev _ req Hin Hurl)
      as [Hold | (-> & Htruthy & ->)].
    + destruct (IH Hold Hurl) as (before & after & -> & Hreq & Ht).
      exists before, (after ++ [ev])%list.
      split; [| split; assumption].
      now rewrite <- app_assoc.
    + exists evs, []. split; [reflexivity | split; [reflexivity | exact Htruthy]].
Qed.

Lemma export_requests_carry_a_report_witness :
  In (Fetch (reportRequest_of sampleReport))
     (trace (session [Drop cv (mkDragEvent [sampleCv]);
                      Drop jd (mkDragEvent [sampleJob]);
                      ClickEvaluate;
                      EvaluationSettles (Resolved report200);
                      ClickDownload] mount)) /\
  url (reportRequest_of sampleReport) = REPORT_URL /\
  exists before after,
    [Drop cv (mkDragEvent [sampleCv]);
     Drop jd (mkDragEvent [sampleJob]);
     ClickEvaluate;
     EvaluationSettles (Resolved report200);
     ClickDownload] = (before ++ ClickDownload :: after)%list /\
    reportRequest_of sampleReport =
      mkRequest REPORT_URL "POST" [("Content-Type", "application/json")]
                (JsonBody (evaluationReport (component (session before mount)))) /\
    truthy (evaluationReport (component (session before mount))) = true.
Proof.
  assert (Hin : In (Fetch (reportRequest_of sampleReport))
                   (trace (session [Drop cv (mkDragEvent [sampleCv]);
                                    Drop jd (mkDragEvent [sampleJob]);
                                    ClickEvaluate;
                                    EvaluationSettles (Resolved report200);
                                    ClickDownload] mount))).
  { vm_compute. tauto. }
  split; [exact Hin | split; [reflexivity |]].
  apply (export_requests_carry_a_report _ (reportRequest_of sampleReport) Hin).
  reflexivity.
Defined.

(** X14.  In every session the error cell is empty or holds one of three
    fixed texts, so the alert is shown exactly when the cell is not empty.
    The text ['Please upload both CV and Job Description'] is never shown:
    the Evaluate button is disabled while a file is missing, so the guard at
    the top of [evaluateCV] is never reached from the page. *)
Theorem error_is_one_of_three_messages :
  forall (evs : list UIEvent),
    let st := component (session evs mount) in
    (error st = None \/
     error st = Some "Please upload a PDF file under 5MB" \/
     error st = Some "Failed to evaluate CV. Please try again." \/
     error st = Some "Failed to download report") /\
    error st <> Some "Please upload both CV and Job Description" /\
    errorAlert st = error st.
Proof.
  intros evs st.
  destruct (session_sound evs mount mount_sound) as [(_ & _ & Herr & _) _].
  fold st in Herr.
  unfold errorAlert, UPLOAD_ERROR, EVALUATE_ERROR, DOWNLOAD_ERROR in *.
  destruct Herr as [H | [H | [H | H]]]; rewrite H;
    (split; [tauto | split; [discriminate | reflexivity]]).
Qed.

Lemma change_keeps_slot (st st' : State) (l : list Effect) (ty : Role) :
  change st st' l ->
  is_some (slot ty st) = true -> is_some (slot ty st') = true.
Proof.
  intros Hch H.
  destruct Hch as [st l Hl | st ty' f l Hacc Hl | st l Hl | st cvF jobF Hc Hj Hi
                  | st parsed l Hl | st l Hl | st Ht | st l Hl];
    try (destruct ty; exact H).
  destruct ty, ty'; cbn; (reflexivity || exact H).
Qed.

(** X15.  A slot is never emptied: from any state of the component, once a
    role holds a file it holds one after every further sequence of events
    (there is no remove operation, and a refused file leaves the old one). *)
Theorem populated_slot_stays_populated :
  forall (sys : System) (evs : list UIEvent) (ty : Role),
    is_some (slot ty (component sys)) = true ->
    is_some (slot ty (component (session evs sys))) = true.
Proof.
  intros sys evs ty. revert sys.
  induction evs as [| ev evs IH]; intros sys H; [exact H |].
  cbn [session fold_left]. apply IH.
  destruct (dispatch_change ev sys) as (l & _ & Hch).
  exact (change_keeps_slot _ _ l ty Hch H).
Qed.

Lemma populated_slot_stays_populated_witness :
  is_some (slot cv (component (mkSystem readyState [] [] []))) = true /\
  is_some (slot cv (component
                      (session [InputChange cv (mkChangeEvent (Some []))]
                               (mkSystem readyState [] [] [])))) = true.
Proof.
  split; [reflexivity |].
  apply (populated_slot_stays_populated (mkSystem readyState [] [] [])
           [InputChange cv (mkChangeEvent (Some []))] cv).
  reflexivity.
Defined.

(** X16.  The stored report changes only when a pending evaluation settles
    with a success status and a body that parses, and it then becomes that
    body.  No other event -- intake, drag, a click, a failed evaluation, an
    export and its outcome -- writes the report cell. *)
Theorem report_changes_only_on_successful_evaluation :
  forall (ev : UIEvent) (sys : System),
    evaluationReport (component (dispatch ev sys)) <>
      evaluationReport (component sys) ->
    exists r parsed,
      ev = EvaluationSettles (Resolved r) /\
      ok r = true /\
      json r = inr parsed /\
      pendingEvaluations sys <> [] /\
      evaluationReport (component (dispatch ev sys)) = parsed.
Proof.
  intros ev sys Hneq.
  assert (Hquiet : forall h : M unit,
             (forall st, evaluationReport (final (h st)) = evaluationReport st) ->
             evaluationReport (component (invoke h sys)) =
               evaluationReport (component sys)).
  { intros h Hh. unfold invoke. cbn [component]. apply Hh. }
  destruct ev as [ty e | ty e | | | | | o | o]; cbn [dispatch] in Hneq.
  - destruct (fileInput_disabled (component sys)); [now contradiction Hneq |].
    exfalso. apply Hneq, Hquiet. intros st. rewrite handleFileUpload_run.
    apply intake_frame.
  - exfalso. apply Hneq, Hquiet. intros st. rewrite handleDrop_run.
    apply intake_frame.
  - exfalso. now apply Hneq.
  - exfalso. now apply Hneq.
  - destruct (evaluateButton_disabled (component sys)) eqn:Hdis;
      [now contradiction Hneq |].
    destruct (evaluateButton_enabled _ Hdis) as (cvF & jobF & Hc & Hj & _).
    exfalso. apply Hneq. unfold invoke.
    now rewrite (evaluateCV_call_ready _ cvF jobF Hc Hj).
  - destruct (reportCard_rendered (component sys)); now contradiction Hneq.
  - cbn [dispatch].
    destruct (pendingEvaluations sys) as [| req rest] eqn:Hpending;
      [now contradiction Hneq |].
    unfold invoke in *. cbn [component] in *.
    destruct (evaluation_failed o) eqn:Hfail.
    + exfalso. apply Hneq.
      now rewrite (evaluateCV_settled_failed o (component sys) Hfail).
    + unfold evaluation_failed in Hfail. destruct o as [e | r]; [discriminate |].
      destruct (json r) as [e | parsed] eqn:Hjson; [discriminate |].
      apply negb_false_iff in Hfail.
      exists r, parsed.
      rewrite (evaluateCV_settled_ok (component sys) r parsed Hfail Hjson).
      repeat split; try assumption. discriminate.
  - destruct (pendingDownloads sys) as [| req rest]; [now contradiction Hneq |].
    exfalso. apply Hneq. unfold invoke. cbn [component].
    destruct (downloadReport_settled_always o (component sys))
      as (_ & _ & [-> | ->]); reflexivity.
Qed.

Lemma report_changes_only_on_successful_evaluation_witness :
  evaluationReport
    (component (dispatch (EvaluationSettles (Resolved report200))
                         (mkSystem submittingState [evaluateRequest] [] []))) <>
    evaluationReport (component (mkSystem submittingState [evaluateRequest] [] [])) /\
  exists r parsed,
    EvaluationSettles (Resolved report200) = EvaluationSettles (Resolved r) /\
    ok r = true /\
    json r = inr parsed /\
    pendingEvaluations (mkSystem submittingState [evaluateRequest] [] []) <> [] /\
    evaluationReport
      (component (dispatch (EvaluationSettles (Resolved report200))
                           (mkSystem submittingState [evaluateRequest] [] []))) =
      parsed.
Proof.
  split; [discriminate |].
  apply (report_changes_only_on_successful_evaluation
           (EvaluationSettles (Resolved report200))
           (mkSystem submittingState [evaluateRequest] [] [])).
  discriminate.
Defined.

Lemma pending_means_evaluating (sys : System) :
  single_flight sys -> pendingEvaluations sys <> [] ->
  isEvaluating (component sys) = true /\
  exists req, pendingEvaluations sys = [req].
Proof.
  unfold single_flight. intros Hs Hp.
  destruct (pendingEvaluations sys) as [| req rest]; [contradiction |].
  destruct (isEvaluating (component sys)); [| discriminate Hs].
  split; [reflexivity |]. exists req.
  destruct rest; [reflexivity | discriminate Hs].
Qed.

Lemma renderReport_ext (st st' : State) :
  evaluationReport st' = evaluationReport st ->
  renderReport st' = renderReport st.
Proof.
  intros H. unfold renderReport, reportCard_rendered. now rewrite H.
Qed.

(** X17.  In every session, when the pending evaluation settles -- with
    any outcome -- nothing is left pending, the evaluating flag is cleared
    and both files are still held.  If the page is then on display, the
    Evaluate button and the file inputs are enabled and the caption is back
    to ['Evaluate CV'], so the user can retry at once.  After a failed
    evaluation the page is on display exactly if it was before, since the
    report is untouched; a success whose body cannot be laid out takes the
    page, and the button with it, away. *)
Theorem settled_evaluation_can_be_retried :
  forall (evs : list UIEvent) (o : FetchOutcome),
    let sys := session evs mount in
    pendingEvaluations sys <> [] ->
    let sys' := dispatch (EvaluationSettles o) sys in
    pendingEvaluations sys' = [] /\
    isEvaluating (component sys') = false /\
    cvFile (component sys') = cvFile (component sys) /\
    jobFile (component sys') = jobFile (component sys) /\
    (displayed (component sys') ->
     evaluateButton_disabled (component sys') = false /\
     fileInput_disabled (component sys') = false /\
     evaluateButton_label (component sys') = "Evaluate CV") /\
    (evaluation_failed o = true ->
     renderReport (component sys') = renderReport (component sys) /\
     (displayed (component sys') <-> displayed (component sys))).
Proof.
  intros evs o sys Hp sys'.
  assert (Hs : single_flight sys) by (apply session_single_flight; reflexivity).
  destruct (pending_means_evaluating sys Hs Hp) as (Hflag & req & Hreq).
  destruct (session_sound evs mount mount_sound) as [(_ & Hfiles & _) _].
  destruct (Hfiles Hflag) as [Hc Hj]. fold sys in Hc, Hj.
  destruct (evaluateCV_settled_always o (component sys))
    as (_ & Hidle & Hno & Hc' & Hj').
  assert (Hcomp : component sys' = final (evaluateCV_settled o (component sys))).
  { subst sys'. cbn [dispatch]. rewrite Hreq. reflexivity. }
  assert (Hpend : pendingEvaluations sys' = []).
  { subst sys'. cbn [dispatch]. rewrite Hreq. unfold invoke.
    cbn [component pendingEvaluations].
    now rewrite (fetches_to_no_requests _ _ Hno). }
  rewrite Hcomp.
  split; [exact Hpend | split; [exact Hidle | split; [exact Hc' | split; [exact Hj' |]]]].
  split.
  - intros _. unfold evaluateButton_disabled, fileInput_disabled,
      evaluateButton_label.
    rewrite Hidle, Hc', Hj', Hc, Hj. repeat split.
  - intros Hfail.
    assert (Hsame : renderReport (final (evaluateCV_settled o (component sys))) =
                    renderReport (component sys)).
    { apply renderReport_ext.
      now rewrite (evaluateCV_settled_failed o (component sys) Hfail). }
    split; [exact Hsame |]. unfold displayed. now rewrite Hsame.
Qed.

Lemma settled_evaluation_can_be_retried_witness :
  pendingEvaluations
    (session [Drop cv (mkDragEvent [sampleCv]);
              Drop jd (mkDragEvent [sampleJob]);
              ClickEvaluate] mount) <> [] /\
  pendingEvaluations
    (dispatch (EvaluationSettles (Resolved parseFailure500))
       (session [Drop cv (mkDragEvent [sampleCv]);
                 Drop jd (mkDragEvent [sampleJob]);
                 ClickEvaluate] mount)) = [].
Proof.
  split; [discriminate |].
  apply (settled_evaluation_can_be_retried
           [Drop cv (mkDragEvent [sampleCv]);
            Drop jd (mkDragEvent [sampleJob]);
            ClickEvaluate] (Resolved parseFailure500)).
  discriminate.
Defined.

(** X18.  In every session, while an evaluation is pending the file inputs
    are disabled and the button reads ['Evaluating...']: a change event of
    either input changes nothing. *)
Theorem inputs_locked_while_evaluating :
  forall (evs : list UIEvent) (ty : Role) (e : ChangeEvent),
    let sys := session evs mount in
    pendingEvaluations sys <> [] ->
    fileInput_disabled (component sys) = true /\
    evaluateButton_label (component sys) = "Evaluating..." /\
    dispatch (InputChange ty e) sys = sys.
Proof.
  intros evs ty e sys Hp.
  assert (Hs : single_flight sys) by (apply session_single_flight; reflexivity).
  destruct (pending_means_evaluating sys Hs Hp) as (Hflag & _).
  unfold fileInput_disabled, evaluateButton_label. cbn [dispatch].
  unfold fileInput_disabled. rewrite Hflag. repeat split.
Qed.

Lemma inputs_locked_while_evaluating_witness :
  pendingEvaluations
    (session [Drop cv (mkDragEvent [sampleCv]);
              Drop jd (mkDragEvent [sampleJob]);
              ClickEvaluate] mount) <> [] /\
  fileInput_disabled
    (component (session [Drop cv (mkDragEvent [sampleCv]);
                         Drop jd (mkDragEvent [sampleJob]);
                         ClickEvaluate] mount)) = true.
Proof.
  split; [discriminate |].
  apply (inputs_locked_while_evaluating
           [Drop cv (mkDragEvent [sampleCv]);
            Drop jd (mkDragEvent [sampleJob]);
            ClickEvaluate] cv (mkChangeEvent None)).
  discriminate.
Defined.

Lemma dispatch_ClickDownload (sys : System) :
  reportCard_rendered (component sys) = true ->
  dispatch ClickDownload sys =
  mkSystem (component sys)
           (pendingEvaluations sys)
           (pendingDownloads sys ++
              [reportRequest_of (evaluationReport (component sys))])%list
           (trace sys ++
              [Fetch (reportRequest_of (evaluationReport (component sys)))])%list.
Proof.
  intros Hcard. cbn [dispatch]. rewrite Hcard. unfold invoke.
  rewrite downloadReport_call_run. cbn [final log].
  f_equal. apply app_nil_r.
Qed.

(** X19.  The export has no guard of its own: with a report on display,
    [n] clicks on Download in a row send [n] requests, each carrying the
    stored report, and all stay pending together; the component's state is
    not touched. *)
Theorem export_clicks_are_not_limited :
  forall (n : nat) (sys : System),
    reportCard_rendered (component sys) = true ->
    let req := reportRequest_of (evaluationReport (component sys)) in
    session (repeat ClickDownload n) sys =
    mkSystem (component sys)
             (pendingEvaluations sys)
             (pendingDownloads sys ++ repeat req n)%list
             (trace sys ++ repeat (Fetch req) n)%list.
Proof.
  induction n as [| n IH]; intros sys Hcard req; subst req.
  - cbn [repeat session fold_left]. rewrite !app_nil_r. now destruct sys.
  - cbn [repeat session fold_left].
    rewrite (dispatch_ClickDownload sys Hcard).
    change (fold_left (fun s ev => dispatch ev s) (repeat ClickDownload n))
      with (session (repeat ClickDownload n)).
    rewrite IH by exact Hcard.
    cbn [component pendingEvaluations pendingDownloads trace].
    now rewrite <- !app_assoc.
Qed.

Lemma export_clicks_are_not_limited_witness :
  reportCard_rendered
    (component (mkSystem (setEvaluationReport sampleReport readyState) [] [] [])) =
    true /\
  length (pendingDownloads
            (session (repeat ClickDownload 3)
               (mkSystem (setEvaluationReport sampleReport readyState) [] [] []))) =
    3%nat.
Proof.
  split; [reflexivity |].
  rewrite (export_clicks_are_not_limited 3
             (mkSystem (setEvaluationReport sampleReport readyState) [] [] [])).
  - reflexivity.
  - reflexivity.
Defined.

(** X20.  The whole cycle.  Starting from the mounted component, dropping
    an acceptable CV, choosing an acceptable job description, clicking
    Evaluate and receiving a success response whose body parses ends with
    both files held, the parsed body as the report, no error, nothing
    pending, and exactly one request sent, carrying those two files. *)
Theorem evaluation_cycle :
  forall (cvF jobF : File) (r : Response) (parsed : JSON),
    acceptable cvF = true ->
    acceptable jobF = true ->
    ok r = true ->
    json r = inr parsed ->
    let sys :=
      session [Drop cv (mkDragEvent [cvF]);
               InputChange jd (mkChangeEvent (Some [jobF]));
               ClickEvaluate;
               EvaluationSettles (Resolved r)] mount in
    component sys = mkState (Some cvF) (Some jobF) parsed false None None /\
    pendingEvaluations sys = [] /\
    requests (trace sys) = [Fetch (evaluateRequest_of cvF jobF)].
Proof.
  intros cvF jobF r parsed Hcv Hjob Hok Hjson sys. subst sys.
  unfold session. cbn [fold_left].
  assert (H1 : dispatch (Drop cv (mkDragEvent [cvF])) mount =
               mkSystem (mkState (Some cvF) None JNull false None None) [] []
                        [PreventDefault; ClassListRemove HIGHLIGHT]).
  { cbn [dispatch]. unfold invoke. rewrite handleDrop_run.
    unfold intake, dropped_file. cbn [dataTransfer_files hd_error].
    rewrite Hcv. reflexivity. }
  rewrite H1.
  assert (H2 : dispatch (InputChange jd (mkChangeEvent (Some [jobF])))
                 (mkSystem (mkState (Some cvF) None JNull false None None) [] []
                           [PreventDefault; ClassListRemove HIGHLIGHT]) =
               mkSystem (mkState (Some cvF) (Some jobF) JNull false None None) [] []
                        [PreventDefault; ClassListRemove HIGHLIGHT]).
  { cbn [dispatch fileInput_disabled component isEvaluating]. unfold invoke.
    rewrite handleFileUpload_run.
    unfold intake, input_file. cbn [target_files hd_error].
    rewrite Hjob. reflexivity. }
  rewrite H2.
  assert (H3 : dispatch ClickEvaluate
                 (mkSystem (mkState (Some cvF) (Some jobF) JNull false None None)
                           [] [] [PreventDefault; ClassListRemove HIGHLIGHT]) =
               mkSystem (mkState (Some cvF) (Some jobF) JNull true None None)
                        [evaluateRequest_of cvF jobF] []
                        [PreventDefault; ClassListRemove HIGHLIGHT;
                         ConsoleLog "Sending request to API..." None;
                         Fetch (evaluateRequest_of cvF jobF)]).
  { reflexivity. }
  rewrite H3. cbn [dispatch pendingEvaluations]. unfold invoke.
  rewrite (evaluateCV_settled_ok _ r parsed Hok Hjson).
  repeat split.
Qed.

Lemma evaluation_cycle_witness :
  acceptable sampleCv = true /\ acceptable sampleJob = true /\
  ok report200 = true /\ json report200 = inr sampleReport /\
  pendingEvaluations
    (session [Drop cv (mkDragEvent [sampleCv]);
              InputChange jd (mkChangeEvent (Some [sampleJob]));
              ClickEvaluate;
              EvaluationSettles (Resolved report200)] mount) = [].
Proof.
  repeat (split; [reflexivity |]).
  apply (evaluation_cycle sampleCv sampleJob report200 sampleReport);
    reflexivity.
Defined.

(* ------------------------------------------------------------------ *)
(** ** More on the report layout *)

Lemma commitSection_run (v : SectionView) :
  commitSection v = if showable v then inr v else inl OBJECT_CHILD.
Proof.
  unfold commitSection, showable, child, children.
  destruct (validChildV (heading v)); cbn [andThen andb]; [| reflexivity].
  destruct (sectionBody v) as [tokens | text].
  - destruct (forallb validChild tokens); reflexivity.
  - destruct (validChildV text); reflexivity.
Qed.

Lemma commitSections_run (vs : list SectionView) :
  commitSections vs = if forallb showable vs then inr vs else inl OBJECT_CHILD.
Proof.
  induction vs as [| v vs IH]; [reflexivity |].
  cbn [commitSections forallb]. rewrite commitSection_run.
  destruct (showable v); cbn [andThen andb]; [| reflexivity].
  rewrite IH. destruct (forallb showable vs); reflexivity.
Qed.

Lemma renderSection_iff (s : JSON) (v : SectionView) :
  renderSection s = inr v <-> sectionElement s = inr v /\ showable v = true.
Proof.
  unfold renderSection. destruct (sectionElement s) as [e | v']; cbn [andThen].
  - split; [discriminate | intros [H _]; discriminate H].
  - rewrite commitSection_run. destruct (showable v') eqn:Hshow.
    + split.
      * intros H. injection H as <-. now split.
      * intros [H _]. exact H.
    + split; [discriminate |].
      intros [H Hv]. injection H as <-. congruence.
Qed.

Lemma sectionElements_Forall2 (sections : list JSON) (vs : list SectionView) :
  sectionElements sections = inr vs <->
  Forall2 (fun s v => sectionElement s = inr v) sections vs.
Proof.
  revert vs. induction sections as [| s rest IH]; intros vs;
    cbn [sectionElements].
  - split.
    + intros H. injection H as <-. constructor.
    + intros H. inversion H. reflexivity.
  - unfold andThen. split.
    + intros H. destruct (sectionElement s) as [e | v] eqn:Hs; [discriminate |].
      destruct (sectionElements rest) as [e | vs'] eqn:Hrest; [discriminate |].
      injection H as <-. constructor; [exact Hs | now apply IH].
    + intros H. inversion H as [| s' v rest' vs' Hs Hrest]; subst.
      rewrite Hs. apply IH in Hrest. now rewrite Hrest.
Qed.

Lemma renderSections_Forall2 (sections : list JSON) (vs : list SectionView) :
  renderSections sections = inr vs <->
  Forall2 (fun s v => renderSection s = inr v) sections vs.
Proof.
  unfold renderSections. split.
  - destruct (sectionElements sections) as [e | es] eqn:Hes; cbn [andThen];
      [discriminate |].
    rewrite commitSections_run.
    destruct (forallb showable es) eqn:Hshow; [| discriminate].
    intros H. injection H as <-.
    apply sectionElements_Forall2 in Hes.
    induction Hes as [| s v rest vs Hs _ IH]; [constructor |].
    cbn [forallb] in Hshow. apply andb_true_iff in Hshow as [Hv Hrest].
    constructor; [now apply renderSection_iff | exact (IH Hrest)].
  - intros H.
    assert (Hes : Forall2 (fun s v => sectionElement s = inr v) sections vs /\
                  forallb showable vs = true).
    { induction H as [| s v rest vs' Hs _ [IH1 IH2]]; [split; [constructor | reflexivity] |].
      apply renderSection_iff in Hs as [Hs Hv]. split.
      - now constructor.
      - cbn [forallb]. now rewrite Hv, IH2. }
    destruct Hes as [Hes Hshow]. apply sectionElements_Forall2 in Hes.
    rewrite Hes. cbn [andThen]. now rewrite commitSections_run, Hshow.
Qed.

Lemma renderSection_succeeds_iff (section : JSON) :
  (exists v, renderSection section = inr v) <->
  renderable_section section = true.
Proof.
  destruct section as [| b | n | s | items | props];
    try (split; [reflexivity | intros _; eexists; reflexivity]).
  - split; [intros [v H]; discriminate H | discriminate].
  - unfold renderable_section.
    destruct (strict_eq_string (lookup "title" props) MISSING_KEYWORDS) eqn:Ht.
    + apply strict_eq_string_true in Ht. rewrite Ht at 1.
      cbn [validChildV validChild andb].
      destruct (lookup "description" props) as [d |] eqn:Hdesc.
      * destruct d as [| b | n | s | keywords | ps];
          try (split; [| discriminate]; intros [v Hv];
               destruct (renderSection_not_a_list props Ht) as [e He];
               [intros keywords; rewrite Hdesc; discriminate
               | rewrite He in Hv; discriminate Hv]).
        rewrite (renderSection_keywords props keywords Ht Hdesc).
        destruct (forallb validChild keywords).
        -- split; [reflexivity | intros _; eexists; reflexivity].
        -- split; [intros [v Hv]; discriminate Hv | discriminate].
      * split; [| discriminate]. intros [v Hv].
        destruct (renderSection_not_a_list props Ht) as [e He];
          [intros keywords; rewrite Hdesc; discriminate
          | rewrite He in Hv; discriminate Hv].
    + apply strict_eq_string_false in Ht.
      rewrite (renderSection_prose props Ht).
      destruct (validChildV (lookup "title" props) &&
                validChildV (lookup "description" props)).
      * split; [reflexivity | intros _; eexists; reflexivity].
      * split; [intros [v Hv]; discriminate Hv | discriminate].
Qed.

Lemma sections_render_iff (sections : list JSON) :
  (exists vs, renderSections sections = inr vs) <->
  forallb renderable_section sections = true.
Proof.
  induction sections as [| s rest IH]; cbn [forallb].
  - split; [reflexivity | intros _; exists []; reflexivity].
  - rewrite andb_true_iff, <- IH, <- renderSection_succeeds_iff. split.
    + intros [vs H]. apply renderSections_Forall2 in H.
      inversion H as [| s' v rest' vs' Hs Hrest]; subst.
      split; [now exists v |]. exists vs'. now apply renderSections_Forall2.
    + intros [[v Hv] [vs Hvs]]. exists (v :: vs).
      apply renderSections_Forall2. constructor; [exact Hv |].
      now apply renderSections_Forall2.
Qed.

(** The card of an object report with a section list, in terms of its
    score and its sections. *)
Lemma renderReport_object (st : State) (props : list (string * JSON))
      (sections : list JSON) (view : option ReportView) :
  evaluationReport st = JObject props ->
  lookup "sections" props = Some (JArray sections) ->
  renderReport st = inr view <->
  validChildV (lookup "matchScore" props) = true /\
  exists vs, renderSections sections = inr vs /\
             view = Some (mkReportView (lookup "matchScore" props) vs).
Proof.
  intros Hrep Hsec. unfold renderReport, reportCard_rendered, renderSections.
  rewrite Hrep. cbn [truthy prop andThen]. rewrite Hsec.
  destruct (sectionElements sections) as [e | es]; cbn [andThen].
  - split; [discriminate | intros [_ (vs & H & _)]; discriminate H].
  - unfold child. rewrite commitSections_run.
    destruct (validChildV (lookup "matchScore" props)); cbn [andThen].
    + destruct (forallb showable es); cbn [andThen].
      * split.
        -- intros H. injection H as <-. split; [reflexivity |]. now exists es.
        -- intros [_ (vs & H & ->)]. injection H as <-. reflexivity.
      * split; [discriminate | intros [_ (vs & H & _)]; discriminate H].
    + split; [discriminate | intros [H _]; discriminate H].
Qed.

Lemma renderReport_shape (st : State) (view : ReportView) :
  renderReport st = inr (Some view) ->
  exists props sections,
    evaluationReport st = JObject props /\
    lookup "sections" props = Some (JArray sections).
Proof.
  unfold renderReport, reportCard_rendered.
  destruct (truthy (evaluationReport st)); [| discriminate].
  destruct (evaluationReport st) as [| b | n | s | items | props];
    cbn [prop andThen]; try discriminate.
  destruct (lookup "sections" props) as [[| b | n | s | items | ps] |] eqn:Hsec;
    try discriminate.
  intros _. exists props, items. split; [reflexivity | exact Hsec].
Qed.

(** X21.  The sections of a stored report are what the card shows, in the
    report's order: when the card of a report with a section list is laid
    out, its views pair off, position by position, with the report's
    sections, each view being the layout of its section; and when any one
    section of the report cannot be laid out, the whole card throws. *)
Theorem sections_rendered_in_order :
  forall (st : State) (props : list (string * JSON)) (sections : list JSON),
    evaluationReport st = JObject props ->
    lookup "sections" props = Some (JArray sections) ->
    (forall view,
        renderReport st = inr (Some view) ->
        Forall2 (fun s v => renderSection s = inr v)
                sections (shownSections view)) /\
    ((exists s e, In s sections /\ renderSection s = inl e) ->
     exists e', renderReport st = inl e').
Proof.
  intros st props sections Hrep Hsec. split.
  - intros view H.
    apply (renderReport_object st props sections (Some view) Hrep Hsec) in H.
    destruct H as [_ (vs & Hvs & Hview)]. injection Hview as ->.
    cbn [shownSections]. now apply renderSections_Forall2.
  - intros (s & e & Hin & Hs).
    destruct (renderReport st) as [e' | view] eqn:H; [now exists e' |].
    exfalso.
    apply (renderReport_object st props sections view Hrep Hsec) in H.
    destruct H as [_ (vs & Hvs & _)]. apply renderSections_Forall2 in Hvs.
    clear Hsec. revert Hin.
    induction Hvs as [| s' v rest vs' Hv _ IH]; [intros [] |].
    intros [-> | Hin]; [congruence | exact (IH Hin)].
Qed.

Lemma sections_rendered_in_order_witness :
  evaluationReport (setEvaluationReport reportWithNullSection readyState) =
    JObject [("matchScore", JNumber 87);
             ("sections",
              JArray [JObject [("title", JString "Experience");
                               ("description", JString "Strong match")];
                      JNull])] /\
  lookup "sections"
         [("matchScore", JNumber 87);
          ("sections",
           JArray [JObject [("title", JString "Experience");
                            ("description", JString "Strong match")];
                   JNull])] =
    Some (JArray [JObject [("title", JString "Experience");
                           ("description", JString "Strong match")];
                  JNull]) /\
  exists e',
    renderReport (setEvaluationReport reportWithNullSection readyState) = inl e'.
Proof.
  split; [reflexivity | split; [reflexivity |]].
  apply (sections_rendered_in_order
           (setEvaluationReport reportWithNullSection readyState)
           [("matchScore", JNumber 87);
            ("sections",
             JArray [JObject [("title", JString "Experience");
                              ("description", JString "Strong match")];
                     JNull])]
           [JObject [("title", JString "Experience");
                     ("description", JString "Strong match")];
            JNull]);
    [reflexivity | reflexivity |].
  exists JNull. eexists. split; [right; left; reflexivity | reflexivity].
Defined.

(** X22.  A section can be laid out without a throw exactly when it is not
    [null], its title is something the page can show (not an object, nor a
    list holding one), and its body is too: for the title
    ["Missing Keywords"] the description must be an array of showable
    keywords, for any other title the description must itself be showable.
    A missing title or description is shown as nothing. *)
Theorem section_renders_iff_renderable :
  forall (section : JSON),
    (exists v, renderSection section = inr v) <->
    renderable_section section = true.
Proof.
  exact renderSection_succeeds_iff.
Qed.

(** X23.  The report card can be laid out without a throw exactly when the
    stored report is falsy (no card) or is an object whose [matchScore] is
    showable and whose [sections] is an array of sections that can each be
    laid out.  A truthy report of any other shape -- no [sections], a
    non-array [sections], an object as score, an array, a number, a
    string -- makes the layout throw. *)
Theorem report_renders_iff_renderable :
  forall (st : State),
    (exists v, renderReport st = inr v) <->
    renderable_report (evaluationReport st) = true.
Proof.
  intros st. unfold renderable_report.
  destruct (truthy (evaluationReport st)) eqn:Ht.
  - destruct (evaluationReport st) as [| b | n | s | items | props] eqn:Hrep;
      try (unfold renderReport, reportCard_rendered; rewrite Hrep, Ht;
           split; [intros [v H]; discriminate H | discriminate]).
    destruct (lookup "sections" props) as [[| b | n | s | items | ps] |] eqn:Hsec;
      try (unfold renderReport, reportCard_rendered; rewrite Hrep, Ht;
           cbn [prop andThen]; rewrite Hsec;
           split; [intros [v H]; discriminate H | discriminate]).
    rewrite andb_true_iff, <- sections_render_iff. split.
    + intros [v H].
      apply (renderReport_object st props items v Hrep Hsec) in H.
      destruct H as [Hscore (vs & Hvs & _)]. split; [exact Hscore | now exists vs].
    + intros [Hscore [vs Hvs]]. eexists.
      apply (renderReport_object st props items _ Hrep Hsec).
      split; [exact Hscore |]. exists vs. split; [exact Hvs | reflexivity].
  - unfold renderReport, reportCard_rendered. rewrite Ht.
    split; [reflexivity | intros _; eexists; reflexivity].
Qed.

(** X24.  A laid-out report shows the stored [matchScore] as it is and as
    many sections as the report has, so no section is dropped or added. *)
Theorem rendered_report_keeps_score_and_count :
  forall (st : State) (view : ReportView),
    renderReport st = inr (Some view) ->
    exists props sections,
      evaluationReport st = JObject props /\
      lookup "sections" props = Some (JArray sections) /\
      shownScore view = lookup "matchScore" props /\
      length (shownSections view) = length sections /\
      renderSections sections = inr (shownSections view).
Proof.
  intros st view H.
  destruct (renderReport_shape st view H) as (props & sections & Hrep & Hsec).
  exists props, sections.
  apply (renderReport_object st props sections (Some view) Hrep Hsec) in H.
  destruct H as [_ (vs & Hvs & Hview)]. injection Hview as ->.
  cbn [shownScore shownSections]. repeat split; try assumption.
  apply renderSections_Forall2 in Hvs. symmetry. exact (Forall2_length Hvs).
Qed.

Lemma rendered_report_keeps_score_and_count_witness :
  renderReport (setEvaluationReport sampleReport readyState) =
    inr (Some (mkReportView
                 (Some (JNumber 87))
                 [mkSectionView [CheckCircle] (Some (JString "Experience"))
                                (Prose (Some (JString "Strong match")));
                  mkSectionView [Clock] (Some (JString "Missing Keywords"))
                                (KeywordTokens [JString "teamwork"; JString "SQL"])])) /\
  exists props sections,
    evaluationReport (setEvaluationReport sampleReport readyState) = JObject props /\
    lookup "sections" props = Some (JArray sections) /\
    Some (JNumber 87) = lookup "matchScore" props /\
    2%nat = length sections /\
    renderSections sections =
      inr [mkSectionView [CheckCircle] (Some (JString "Experience"))
                         (Prose (Some (JString "Strong match")));
           mkSectionView [Clock] (Some (JString "Missing Keywords"))
                         (KeywordTokens [JString "teamwork"; JString "SQL"])].
Proof.
  split; [reflexivity |].
  apply (rendered_report_keeps_score_and_count
           (setEvaluationReport sampleReport readyState)
           (mkReportView
              (Some (JNumber 87))
              [mkSectionView [CheckCircle] (Some (JString "Experience"))
                             (Prose (Some (JString "Strong match")));
               mkSectionView [Clock] (Some (JString "Missing Keywords"))
                             (KeywordTokens [JString "teamwork"; JString "SQL"])])).
  reflexivity.
Defined.


(** X26.  The line under a drop zone names the file held for that role and
    is absent while the slot is empty; in particular a refused file never
    changes the line. *)
Theorem selected_label_follows_slot :
  forall (st : State) (ty : Role) (d : DragEvent),
    let st' := final (handleDrop d ty st) in
    (forall f, dropped_file d = Some f -> acceptable f = true ->
               selectedLabel ty st' = Some ("Selected: " ++ name f)) /\
    ((forall f, dropped_file d = Some f -> acceptable f = false) ->
     selectedLabel ty st' = selectedLabel ty st) /\
    selectedLabel (other ty) st' = selectedLabel (other ty) st.
Proof.
  intros st ty d st'. subst st'. rewrite handleDrop_run. cbn [final].
  unfold selectedLabel. split; [| split].
  - intros f Hf Hacc. unfold intake. rewrite Hf, Hacc, slot_setSlot. reflexivity.
  - intros Hbad. unfold intake. destruct (dropped_file d) as [f |].
    + rewrite (Hbad f eq_refl). destruct ty; reflexivity.
    + destruct ty; reflexivity.
  - destruct (intake_frame (dropped_file d) ty st) as (-> & _). reflexivity.
Qed.
